(** * Longhurst provinces: point classification and metadata lookup

    A shallow embedding of [modules/longhurst.py]: the module-level load of
    the shapefile and of the metadata table, [find_longhurst] and
    [longhurst_meta].  Python exceptions are values of [exn]; the module
    globals are a record threaded through a small state-and-error monad. *)

From Stdlib Require Import ZArith QArith Lqa String Ascii List Lia.
From stdpp Require Import base tactics option list gmap strings.

Local Open Scope string_scope.

(** ** Exceptions and results *)

(** The exception classes the module can raise or let through.  The string
    carried is what [str(e)] shows, except for [KeyError] and [NameError]
    which carry the key and the name. *)
Inductive exn : Type :=
| TypeError (msg : string)
| ValueError (msg : string)
| KeyError (key : string)
| IndexError (msg : string)
| NameError (name : string)
| UnboundLocalError (name : string)
| AttributeError (msg : string)
| FileNotFoundError (msg : string)
| OtherException (cls msg : string).

Inductive result (A : Type) : Type :=
| Ok (a : A)
| Raise (e : exn).
Arguments Ok {A} a.
Arguments Raise {A} e.

Definition raises {A : Type} (r : result A) : Prop := ∃ e, r = Raise e.

Definition quote (s : string) : string := "'" +:+ s +:+ "'".

(** [str(e)] *)
Definition str (e : exn) : string :=
  match e with
  | TypeError msg | ValueError msg | IndexError msg | AttributeError msg
  | FileNotFoundError msg | OtherException _ msg => msg
  | KeyError key => quote key
  | NameError name => "name " +:+ quote name +:+ " is not defined"
  | UnboundLocalError name =>
      "cannot access local variable " +:+ quote name
      +:+ " where it is not associated with a value"
  end.

(** [needle in hay] on strings *)
Fixpoint contains (needle hay : string) : bool :=
  String.prefix needle hay
  || match hay with
     | EmptyString => false
     | String _ hay' => contains needle hay'
     end.

Definition nl : string := String (ascii_of_nat 10) EmptyString.

(** ** Python containers *)

(** [l[i]] for a list and an index that is not negative *)
Definition list_getitem {A : Type} (l : list A) (i : nat) : result A :=
  match l !! i with
  | Some a => Ok a
  | None => Raise (IndexError "list index out of range")
  end.

(** A dict built from its items in order: a later item with the same key
    replaces the earlier one. *)
Definition py_dict `{Countable K} {V : Type} (items : list (K * V)) : gmap K V :=
  foldl (λ m kv, <[kv.1 := kv.2]> m) ∅ items.

(** [d[key]] for a dict with string keys *)
Definition dict_getitem {V : Type} (d : gmap string V) (key : string) : result V :=
  match d !! key with
  | Some v => Ok v
  | None => Raise (KeyError key)
  end.

(** A local variable that may not have been assigned yet *)
Definition local_var {A : Type} (name : string) (v : option A) : result A :=
  match v with
  | Some a => Ok a
  | None => Raise (UnboundLocalError name)
  end.

Section Longhurst.

(** Floating-point numbers and province geometries belong to the Python
    runtime and to the geometry package; the module only passes them on. *)
Context {F Shape : Type}.

(** Values found in shapefile records and in cells of the metadata table.
    [VNone] also stands for a missing cell. *)
Inductive value : Type :=
| VStr (s : string)
| VInt (z : Z)
| VFloat (f : F)
| VNone.

(** [float(v)]: the builtin conversion, with the exception it raises for
    a value that cannot be converted. *)
Variable py_float : value → result F.

(** [Point((x, y)).within(shape(bshp))] *)
Variable within : F → F → Shape → bool.

(** *** The metadata table *)

(** A data frame: column labels, and rows each with its index label and
    its cells in column order. *)
Record DataFrame : Type := {
  columns : list string;
  rows : list (nat * list value)
}.

(** *** Module globals *)

(** The names bound by a completed import.  [lmeta] is [None] when the
    name was never bound. *)
Record Globals : Type := {
  shapes : list Shape;
  records : list (list value);
  lmeta : option DataFrame
}.

(** State and exceptions. *)
Definition M (A : Type) : Type := Globals → result A * Globals.

#[export] Instance M_ret : MRet M := λ A a g, (Ok a, g).
#[export] Instance M_bind : MBind M := λ A B f m g,
  match m g with
  | (Ok a, g') => f a g'
  | (Raise e, g') => (Raise e, g')
  end.

Definition lift {A : Type} (r : result A) : M A := λ g, (r, g).
Definition read {A : Type} (field : Globals → A) : M A := λ g, (Ok (field g), g).
Definition global {A : Type} (name : string) (field : Globals → option A) : M A :=
  λ g, match field g with
       | Some a => (Ok a, g)
       | None => (Raise (NameError name), g)
       end.

(** *** find_longhurst *)

Definition NOT_IN_PROV : string := "NOT_IN_PROV".
Definition not_in_prov_name : string :=
  "Point not in Longhurst province. Likely land, or unassigned area close to Antarctica.".

(** The [for i in range(len(shapes))] loop with its [break].  The locals
    [is_in_poly] and [i] are carried along; [i] is unassigned until the
    body has run once. *)
Fixpoint for_loop (x y : F) (shapes : list Shape) (rng : list nat)
    (is_in_poly : bool) (i : option nat) : result (bool * option nat) :=
  match rng with
  | [] => Ok (is_in_poly, i)
  | k :: rng' =>
      match list_getitem shapes k with
      | Raise e => Raise e
      | Ok bshp =>
          let is_in_poly := within x y bshp in
          if is_in_poly then Ok (is_in_poly, Some k)
          else for_loop x y shapes rng' is_in_poly (Some k)
      end
  end.

(** The dict [lp] built after the loop. *)
Definition build_lp (is_in_poly : bool) (i : option nat) : M (gmap string value) :=
  if is_in_poly then
    i ← lift (local_var "i" i);
    records ← read records;
    ri ← lift (list_getitem records i);
    code ← lift (list_getitem ri 0);
    ri' ← lift (list_getitem records i);
    name ← lift (list_getitem ri' 1);
    mret ({[ "code" := code; "name" := name ]} : gmap string value)
  else
    mret ({[ "code" := VStr NOT_IN_PROV;
             "name" := VStr not_in_prov_name ]} : gmap string value).

Definition find_longhurst (x y : value) (out : string) : M value :=
  x ← lift (py_float x);
  y ← lift (py_float y);
  shapes ← read shapes;
  '(is_in_poly, i) ← lift (for_loop x y shapes (seq 0 (length shapes)) false None);
  lp ← build_lp is_in_poly i;
  lift (dict_getitem lp out).


(** *** longhurst_meta *)

(** What [longhurst_meta] can return: the table, or the dict made by
    [to_dict] from whatever [squeeze] left. *)
Inductive provmeta : Type :=
| MetaTable (df : DataFrame)
| MetaRecord (d : gmap string value)
| MetaColumn (d : gmap nat value)
| MetaFrame (d : gmap string (gmap nat value)).

(** Position of a column label. *)
Definition column_position (label : string) (df : DataFrame) : option nat :=
  fst <$> list_find (λ c, c = label) (columns df).

(** The cell of a row at a column position; a row that is too short has a
    missing value there. *)
Definition cell (j : nat) (row : nat * list value) : value :=
  default VNone (row.2 !! j).

(** [cell == prov] for a string [prov] *)
Definition cell_eq_str (prov : string) (v : value) : bool :=
  match v with
  | VStr s => bool_decide (s = prov)
  | _ => false
  end.

(** [df.loc[df[label] == prov, :]] *)
Definition loc_eq (df : DataFrame) (label prov : string) : result DataFrame :=
  match column_position label df with
  | None => Raise (KeyError label)
  | Some j =>
      Ok {| columns := columns df;
            rows := filter (λ row, cell_eq_str prov (cell j row) = true) (rows df) |}
  end.

(** [df.shape[0]] *)
Definition shape0 (df : DataFrame) : nat := length (rows df).

(** The column at position [j] as (index label, value) items. *)
Definition column_items (j : nat) (df : DataFrame) : list (nat * value) :=
  (λ row, (row.1, cell j row)) <$> rows df.

(** The row as (column label, value) items. *)
Definition row_items (df : DataFrame) (row : nat * list value) : list (string * value) :=
  imap (λ j c, (c, cell j row)) (columns df).

(** [df.squeeze().to_dict()]: axes of length one are dropped, and what is
    left is a scalar (which has no [to_dict]), a series or the frame. *)
Definition squeeze_to_dict (df : DataFrame) : result provmeta :=
  match rows df, columns df with
  | [_], [_] => Raise (AttributeError "'str' object has no attribute 'to_dict'")
  | [row], _ => Ok (MetaRecord (py_dict (row_items df row)))
  | _, [_] => Ok (MetaColumn (py_dict (column_items 0 df)))
  | _, _ =>
      Ok (MetaFrame (py_dict (imap (λ j c, (c, py_dict (column_items j df))) (columns df))))
  end.

Definition longhurst_meta (prov : option string) : M provmeta :=
  match prov with
  | None =>
      lmeta ← global "lmeta" lmeta;
      mret (MetaTable lmeta)
  | Some prov =>
      lmeta ← global "lmeta" lmeta;
      df ← lift (loc_eq lmeta "PROVCODE" prov);
      if bool_decide (shape0 df = 0) then
        lift (Raise (ValueError "invalid province code"))
      else
        lift (squeeze_to_dict df)
  end.

(** *** The module-level load *)

Definition fpath_shapefile : string := "rawdata/longhurst/Longhurst_world_v4_2010".
Definition fpath_csv : string := "rawdata/longhurst/Longhurst_Province_Summary.csv".

(** A shapefile reader that was opened: what its [shapes()] and
    [records()] give. *)
Record Reader : Type := {
  sf_shapes : result (list Shape);
  sf_records : result (list (list value))
}.

(** The files as the two readers find them: [shapefile.Reader(path)] and
    [read_csv(path, sep, header=0)]. *)
Record Files : Type := {
  shapefile_Reader : string → result Reader;
  read_csv : string → string → result DataFrame
}.

Definition shapefile_not_found_message : string :=
  "Shapefile of Longhurst provinces (Longhurst_world_v4_2010) not found!"
  +:+ nl +:+ nl +:+ "Check that it is correctly named or that it is in the "
  +:+ "correct location (rawdata/longhurst/)."
  +:+ nl +:+ nl +:+ "Otherwise, download data from:"
  +:+ nl +:+ nl +:+ "https://www.marineregions.org/downloads.php#longhurst"
  +:+ nl +:+ nl +:+ "Place file (longhurst_v4_2010.zip) in the "
  +:+ "rawdata/longhurst/ folder of the project and unzip it.".

Definition shapefile_error_message (e : exn) : string :=
  "Error when reading Longhurst shapefile:" +:+ nl +:+ nl +:+ str e.

(** [print] of two arguments puts a space between them. *)
Definition csv_not_found_message : string :=
  ("No such file or directory: " +:+ fpath_csv)
  +:+ " "
  +:+ (nl +:+ nl +:+ "The source file can be obtained in: https://www.marineregions.org/sources.php#longhurst"
       +:+ nl +:+ nl +:+ "Remove pre-header lines and empty columns between data columns,"
       +:+ " and convert to ';'-separated .csv").

(** The first [try]: the reader if it opened, and what was printed. *)
Definition open_shapefile (fs : Files) : list string * option Reader :=
  match shapefile_Reader fs fpath_shapefile with
  | Ok sf => ([], Some sf)
  | Raise e =>
      if contains "Unable to open" (str e)
      then ([shapefile_not_found_message], None)
      else ([shapefile_error_message e], None)
  end.

(** The second [try]: only [FileNotFoundError] is caught. *)
Definition open_metadata (fs : Files) : list string * result (option DataFrame) :=
  match read_csv fs fpath_csv ";" with
  | Ok lmeta => ([], Ok (Some lmeta))
  | Raise (FileNotFoundError _) => ([csv_not_found_message], Ok None)
  | Raise e => ([], Raise e)
  end.

(** Running the module body: the lines printed, and the globals of the
    module or the exception that ends the import. *)
Definition module_init (fs : Files) : list string * result Globals :=
  let '(printed, sf) := open_shapefile fs in
  match sf with
  | None => (printed, Raise (NameError "sf"))
  | Some sf =>
      match sf_shapes sf with
      | Raise e => (printed, Raise e)
      | Ok shapes =>
          match sf_records sf with
          | Raise e => (printed, Raise e)
          | Ok records =>
              let '(printed', lmeta) := open_metadata fs in
              match lmeta with
              | Raise e => ((printed ++ printed')%list, Raise e)
              | Ok lmeta =>
                  ((printed ++ printed')%list,
                   Ok {| shapes := shapes; records := records; lmeta := lmeta |})
              end
          end
      end
  end.

End Longhurst.

Arguments value F : clear implicits.
Arguments DataFrame F : clear implicits.
Arguments Globals F Shape : clear implicits.
Arguments M F Shape A : clear implicits.
Arguments provmeta F : clear implicits.
Arguments Reader F Shape : clear implicits.
Arguments Files F Shape : clear implicits.

Arguments MetaTable {F} df.
Arguments MetaRecord {F} d.
Arguments MetaColumn {F} d.
Arguments MetaFrame {F} d.

(** The range of the scan, as the claims speak of it: [i] is the index of
    the first shape that contains the point. *)
Definition first_containing {F Shape : Type} (within : F → F → Shape → bool)
    (x y : F) (shapes : list Shape) (i : nat) : Prop :=
  (∃ s, shapes !! i = Some s ∧ within x y s = true)
  ∧ ∀ j s, (j < i)%nat → shapes !! j = Some s → within x y s = false.

(** The two tables of the shapefile are parallel and a record starts with
    the province code and the province name. *)
Definition parallel_tables {F Shape : Type} (g : Globals F Shape) : Prop :=
  (length (shapes g) ≤ length (records g))%nat
  ∧ Forall (λ r, (2 ≤ length r)%nat) (records g).

(** The [PROVCODE] cell of a row. *)
Definition provcode {F : Type} (df : DataFrame F) (row : nat * list (value F)) : value F :=
  match column_position "PROVCODE" df with
  | Some j => cell j row
  | None => VNone
  end.

(** The rows whose [PROVCODE] is [prov]. *)
Definition matching_rows {F : Type} (prov : string) (df : DataFrame F)
    : list (nat * list (value F)) :=
  filter (λ row, cell_eq_str prov (provcode df row) = true) (rows df).

(** A computation that leaves the globals as it found them, whatever it
    returns or raises. *)
Definition read_only {F Shape A : Type} (m : M F Shape A) : Prop :=
  ∀ g, (m g).2 = g.

(** ** Planar geometry

    The containment test is the geometry package's [within] of a point and
    a polygonal shape.  By its documentation [a.within(b)] holds when the
    boundary and interior of [a] meet only the interior of [b], not its
    boundary or exterior; for a point this is: the point is located in the
    interior of [b].  The location of a point is found by the ray-crossing
    rule on each ring, with exact arithmetic on the coordinates. *)
Module Geometry.

Local Open Scope Q_scope.

Definition coord : Type := Q * Q.
Definition ring : Type := list coord.

Record Polygon : Type := {
  exterior : ring;
  interiors : list ring
}.

(** A polygon is a shape of one part. *)
Definition MultiPolygon : Type := list Polygon.

Inductive Location : Type := Interior | Boundary | Exterior.

Definition Qltb (a b : Q) : bool :=
  match a ?= b with Lt => true | _ => false end.

(** Which side of the directed line [p1 p2] the point [q] is on: [Gt] is
    left (counter-clockwise), [Lt] right, [Eq] on the line. *)
Definition orientation_index (p1 p2 q : coord) : comparison :=
  ((p2.1 - p1.1) * (q.2 - p1.2)) ?= ((p2.2 - p1.2) * (q.1 - p1.1)).

Definition flip (c : comparison) : comparison :=
  match c with Lt => Gt | Gt => Lt | Eq => Eq end.

(** One segment against the ray from [p] towards larger x.  The state is
    whether [p] was seen on a segment, and the number of crossings. *)
Definition count_segment (p p1 p2 : coord) (st : bool * nat) : bool * nat :=
  if Qltb p1.1 p.1 && Qltb p2.1 p.1 then st
  else if Qeq_bool p.1 p2.1 && Qeq_bool p.2 p2.2 then (true, st.2)
  else if Qeq_bool p1.2 p.2 && Qeq_bool p2.2 p.2 then
    let minx := if Qltb p2.1 p1.1 then p2.1 else p1.1 in
    let maxx := if Qltb p2.1 p1.1 then p1.1 else p2.1 in
    if Qle_bool minx p.1 && Qle_bool p.1 maxx then (true, st.2) else st
  else if (Qltb p.2 p1.2 && Qle_bool p2.2 p.2) || (Qltb p.2 p2.2 && Qle_bool p1.2 p.2) then
    let sign := orientation_index p1 p2 p in
    match sign with
    | Eq => (true, st.2)
    | _ =>
        let sign := if Qltb p2.2 p1.2 then flip sign else sign in
        match sign with
        | Gt => (st.1, S st.2)
        | _ => st
        end
    end
  else st.

Fixpoint count_ring (p : coord) (r : ring) (st : bool * nat) : bool * nat :=
  match r with
  | p1 :: (p2 :: _) as r' => count_ring p r' (count_segment p p1 p2 st)
  | _ => st
  end.

Definition locate_in_ring (p : coord) (r : ring) : Location :=
  let st := count_ring p r (false, 0%nat) in
  if st.1 then Boundary
  else if Nat.odd st.2 then Interior
  else Exterior.

(** A point inside the shell is outside the polygon when it is inside a
    hole, and on the boundary when it is on a hole's ring. *)
Fixpoint locate_in_holes (p : coord) (holes : list ring) : Location :=
  match holes with
  | [] => Interior
  | h :: holes' =>
      match locate_in_ring p h with
      | Boundary => Boundary
      | Interior => Exterior
      | Exterior => locate_in_holes p holes'
      end
  end.

Definition locate_in_polygon (p : coord) (poly : Polygon) : Location :=
  match locate_in_ring p (exterior poly) with
  | Interior => locate_in_holes p (interiors poly)
  | loc => loc
  end.

Definition is_interior (loc : Location) : bool :=
  match loc with Interior => true | _ => false end.

Definition is_boundary (loc : Location) : bool :=
  match loc with Boundary => true | _ => false end.

Definition locate (p : coord) (shp : MultiPolygon) : Location :=
  let locs := locate_in_polygon p <$> shp in
  if existsb is_interior locs then Interior
  else if existsb is_boundary locs then Boundary
  else Exterior.

(** [Point((x, y)).within(shp)] *)
Definition within (x y : Q) (shp : MultiPolygon) : bool :=
  is_interior (locate (x, y) shp).

(** The closed segment from [p1] to [p2] has the point [p]: on the line,
    and between the end points in both coordinates. *)
Definition between (a x b : Q) : Prop := (a <= x ∧ x <= b) ∨ (b <= x ∧ x <= a).

Definition on_segment (p p1 p2 : coord) : Prop :=
  orientation_index p1 p2 p = Eq ∧ between p1.1 p.1 p2.1 ∧ between p1.2 p.2 p2.2.

Definition same_point (p q : coord) : Prop := p.1 == q.1 ∧ p.2 == q.2.

(** The segments of a ring, and the points on them. *)
Fixpoint segments (r : ring) : list (coord * coord) :=
  match r with
  | p1 :: (p2 :: _) as r' => (p1, p2) :: segments r'
  | _ => []
  end.

Definition closed (r : ring) : Prop :=
  ∃ p q, head r = Some p ∧ last r = Some q ∧ same_point p q.

Definition on_ring (p : coord) (r : ring) : Prop :=
  ∃ p1 p2, (p1, p2) ∈ segments r ∧ on_segment p p1 p2.

(** [float] on numbers.  In this instance a string is not convertible. *)
Definition float_of_number (v : value Q) : result Q :=
  match v with
  | VFloat f => Ok f
  | VInt z => Ok (inject_Z z)
  | VStr _ => Raise (ValueError "could not convert string to float")
  | VNone => Raise (TypeError "float() argument must be a string or a real number, not 'NoneType'")
  end.

(** Two unit squares that share the edge x = 1. *)
Definition square (x0 : Q) : Polygon :=
  {| exterior := [(x0, 0); (x0 + 1, 0); (x0 + 1, 1); (x0, 1); (x0, 0)];
     interiors := [] |}.

Definition two_squares : Globals Q MultiPolygon :=
  {| shapes := [[square 0]; [square 1]];
     records := [[VStr "SQA"; VStr "Square A"]; [VStr "SQB"; VStr "Square B"]];
     lmeta := Some {| columns := ["PROVCODE"; "PROVDESCR"];
                      rows := [(0%nat, [VStr "SQA"; VStr "Square A"]);
                               (1%nat, [VStr "SQB"; VStr "Square B"])] |} |}.

(** A shapefile that opens and a metadata file that is not there. *)
Definition files_without_csv : Files Q MultiPolygon :=
  {| shapefile_Reader := λ _,
       Ok {| sf_shapes := Ok (shapes two_squares);
             sf_records := Ok (records two_squares) |};
     read_csv := λ path _,
       Raise (FileNotFoundError ("[Errno 2] No such file or directory: " +:+ quote path)) |}.

(** No shapefile at the path. *)
Definition files_without_shapefile : Files Q MultiPolygon :=
  {| shapefile_Reader := λ path,
       Raise (OtherException "ShapefileException"
                ("Unable to open " +:+ path +:+ ".dbf or " +:+ path +:+ ".shp."));
     read_csv := λ _ _, Ok {| columns := ["PROVCODE"]; rows := [] |} |}.

End Geometry.

(** ** Stores and strings, for the statements *)

(** The store of a list of provinces, each a shape with its record: the
    two tables of a shapefile, record [i] describing shape [i]. *)
Definition store_of {F Shape : Type} (provs : list (Shape * list (value F)))
    (table : option (DataFrame F)) : Globals F Shape :=
  {| shapes := provs.*1; records := provs.*2; lmeta := table |}.

(** The provinces of the list whose shape contains the point. *)
Definition containing {F Shape : Type} (within : F → F → Shape → bool) (x y : F)
    (provs : list (Shape * list (value F))) : list (Shape * list (value F)) :=
  filter (λ p, within x y p.1 = true) provs.

(** What the record of the containing shape gives when the dict [lp] is
    built: the dict, or the [IndexError] of the first lookup that fails. *)
Definition lp_of_record {F : Type} (r : option (list (value F)))
    : result (gmap string (value F)) :=
  match r with
  | Some r =>
      match r !! 0%nat, r !! 1%nat with
      | Some code, Some name => Ok {[ "code" := code; "name" := name ]}
      | _, _ => Raise (IndexError "list index out of range")
      end
  | None => Raise (IndexError "list index out of range")
  end.

(** [needle] occurs in [hay]. *)
Definition is_substring (needle hay : string) : Prop :=
  ∃ pre suf, hay = pre +:+ needle +:+ suf.


(** * Properties *)

(** ** Containers *)

Lemma list_getitem_Ok {A : Type} (l : list A) (i : nat) (a : A) :
  l !! i = Some a → list_getitem l i = Ok a.
Proof. intros Hl. unfold list_getitem. by rewrite Hl. Qed.

Lemma list_getitem_middle {A : Type} (pre suf : list A) (a : A) :
  list_getitem (pre ++ a :: suf)%list (length pre) = Ok a.
Proof. apply list_getitem_Ok. by rewrite list_lookup_middle. Qed.

Lemma dict_getitem_code {V : Type} (code name : V) :
  dict_getitem ({[ "code" := code; "name" := name ]} : gmap string V) "code" = Ok code.
Proof. unfold dict_getitem. by rewrite lookup_insert_eq. Qed.

Lemma dict_getitem_name {V : Type} (code name : V) :
  dict_getitem ({[ "code" := code; "name" := name ]} : gmap string V) "name" = Ok name.
Proof.
  unfold dict_getitem.
  rewrite lookup_insert_ne by done. by rewrite lookup_singleton_eq.
Qed.

Lemma dict_getitem_other {V : Type} (code name : V) (out : string) :
  out ≠ "code" → out ≠ "name" →
  dict_getitem ({[ "code" := code; "name" := name ]} : gmap string V) out
  = Raise (KeyError out).
Proof.
  intros Hc Hn. unfold dict_getitem.
  rewrite lookup_insert_ne by done. by rewrite lookup_singleton_ne.
Qed.

(** ** The scan *)

Section Scan.
Context {F Shape : Type} (within : F → F → Shape → bool) (x y : F).

Lemma first_containing_head (s : Shape) (suf : list Shape) :
  within x y s = true → first_containing within x y (s :: suf) 0.
Proof.
  intros Hs. split; [by exists s|]. intros j s' Hj. lia.
Qed.

Lemma first_containing_tail (s : Shape) (suf : list Shape) (k : nat) :
  first_containing within x y (s :: suf) (S k) →
  within x y s = false ∧ first_containing within x y suf k.
Proof.
  intros [[s' [Hl Hs']] Hbefore]. split.
  - apply (Hbefore 0%nat s); [lia | done].
  - split; [by exists s'|].
    intros j s'' Hj Hl'. apply (Hbefore (S j) s''); [lia | done].
Qed.

(** A scan is settled one way or the other. *)
Lemma scan_cases (l : list Shape) :
  (∃ k, first_containing within x y l k) ∨ (∀ s, s ∈ l → within x y s = false).
Proof.
  induction l as [|s l IH].
  - right. intros s Hs. by apply elem_of_nil in Hs.
  - destruct (within x y s) eqn:Hs.
    + left. exists 0%nat. by apply first_containing_head.
    + destruct IH as [[k [[s' [Hl Hs']] Hbefore]] | Hnone].
      * left. exists (S k). split; [by exists s'|].
        intros [|j] s'' Hj Hl'; simpl in Hl'; [congruence|].
        apply (Hbefore j); [lia | done].
      * right. intros s' Hin. apply elem_of_cons in Hin as [-> | Hin]; auto.
Qed.

(** The two outcomes exclude each other. *)
Lemma first_containing_not_none (l : list Shape) (k : nat) :
  first_containing within x y l k → ¬ ∀ s, s ∈ l → within x y s = false.
Proof.
  intros [[s [Hl Hs]] _] Hnone.
  rewrite (Hnone s) in Hs; [done|]. by eapply list_elem_of_lookup_2.
Qed.

(** The index of the first containing shape is unique. *)
Lemma first_containing_unique (l : list Shape) (k k' : nat) :
  first_containing within x y l k → first_containing within x y l k' → k = k'.
Proof.
  intros [[s [Hl Hs]] Hb] [[s' [Hl' Hs']] Hb'].
  destruct (Nat.lt_trichotomy k k') as [Hlt | [-> | Hlt]]; [|done|].
  - rewrite (Hb' k s Hlt Hl) in Hs. done.
  - rewrite (Hb k' s' Hlt Hl') in Hs'. done.
Qed.

(** The loop stops at the first containing shape, with [i] its index. *)
Lemma for_loop_break (suf pre : list Shape) (b : bool) (i0 : option nat) (k : nat) :
  first_containing within x y suf k →
  for_loop within x y (pre ++ suf)%list (seq (length pre) (length suf)) b i0
  = Ok (true, Some (length pre + k)%nat).
Proof.
  revert pre b i0 k. induction suf as [|s suf IH]; intros pre b i0 k Hk.
  - destruct Hk as [[s [Hl _]] _]. by rewrite lookup_nil in Hl.
  - simpl. rewrite list_getitem_middle. destruct k as [|k].
    + destruct Hk as [[s' [Hl Hs']] _]. simpl in Hl. inversion Hl; subst s'.
      rewrite Hs'. by rewrite Nat.add_0_r.
    + apply first_containing_tail in Hk as [Hs Hk]. rewrite Hs.
      specialize (IH (pre ++ [s])%list false (Some (length pre)) k Hk).
      rewrite <- (assoc_L (++)%list) in IH. simpl in IH.
      rewrite length_app in IH. simpl in IH.
      rewrite Nat.add_1_r in IH. rewrite IH. f_equal. f_equal. f_equal. lia.
Qed.

(** Without a containing shape the loop runs to its end and leaves
    [is_in_poly] false. *)
Lemma for_loop_fall_through (suf pre : list Shape) (i0 : option nat) :
  (∀ s, s ∈ suf → within x y s = false) →
  ∃ i, for_loop within x y (pre ++ suf)%list (seq (length pre) (length suf)) false i0
       = Ok (false, i).
Proof.
  revert pre i0. induction suf as [|s suf IH]; intros pre i0 Hnone.
  - by exists i0.
  - simpl. rewrite list_getitem_middle.
    rewrite (Hnone s) by apply list_elem_of_here.
    specialize (IH (pre ++ [s])%list (Some (length pre))).
    rewrite <- (assoc_L (++)%list) in IH. simpl in IH.
    rewrite length_app in IH. simpl in IH. rewrite Nat.add_1_r in IH.
    apply IH. intros s' Hin. apply Hnone. by apply list_elem_of_further.
Qed.

End Scan.

(** ** The monad *)

Section ReadOnly.
Context {F Shape : Type}.

Lemma read_only_ret {A : Type} (a : A) : read_only (mret a : M F Shape A).
Proof. by intros g. Qed.

Lemma read_only_lift {A : Type} (r : result A) : read_only (lift r : M F Shape A).
Proof. by intros g. Qed.

Lemma read_only_read {A : Type} (field : Globals F Shape → A) : read_only (read field).
Proof. by intros g. Qed.

Lemma read_only_global {A : Type} (name : string) (field : Globals F Shape → option A) :
  read_only (global name field).
Proof. intros g. unfold global. by destruct (field g). Qed.

Lemma read_only_bind {A B : Type} (m : M F Shape A) (f : A → M F Shape B) :
  read_only m → (∀ a, read_only (f a)) → read_only (m ≫= f).
Proof.
  intros Hm Hf g. unfold mbind, M_bind.
  specialize (Hm g). destruct (m g) as [[a | e] g']; simpl in Hm; subst g'.
  - apply Hf.
  - done.
Qed.

End ReadOnly.

(** ** find_longhurst *)

Section Classifier.
Context {F Shape : Type}.
Context (py_float : value F → result F) (within : F → F → Shape → bool).

Abbreviation classify := (find_longhurst py_float within).

(** The dict of the sentinel record. *)
Abbreviation sentinel :=
  ({[ "code" := VStr NOT_IN_PROV; "name" := VStr not_in_prov_name ]}
   : gmap string (value F)).

Lemma find_longhurst_bad_x (x y : value F) (out : string) (g : Globals F Shape) (e : exn) :
  py_float x = Raise e → classify x y out g = (Raise e, g).
Proof.
  intros Hx. unfold find_longhurst, mbind, M_bind, lift. by rewrite Hx.
Qed.

Lemma find_longhurst_bad_y (x y : value F) (out : string) (g : Globals F Shape)
    (fx : F) (e : exn) :
  py_float x = Ok fx → py_float y = Raise e →
  classify x y out g = (Raise e, g).
Proof.
  intros Hx Hy. unfold find_longhurst, mbind, M_bind, lift.
  by rewrite Hx, Hy.
Qed.

(** After a match the dict is built from record [i], and [out] picks the
    field. *)
Lemma find_longhurst_matched (x y : value F) (out : string) (g : Globals F Shape)
    (fx fy : F) (i : nat) (r : list (value F)) (code name : value F) :
  py_float x = Ok fx → py_float y = Ok fy →
  first_containing within fx fy (shapes g) i →
  records g !! i = Some r → r !! 0%nat = Some code → r !! 1%nat = Some name →
  classify x y out g
  = (dict_getitem ({[ "code" := code; "name" := name ]} : gmap string (value F)) out, g).
Proof.
  intros Hx Hy Hi Hr Hc Hn.
  unfold find_longhurst, mbind, M_bind, lift, read.
  rewrite Hx, Hy.
  pose proof (for_loop_break within fx fy (shapes g) [] false None i Hi) as Hloop.
  simpl in Hloop. rewrite Hloop. simpl.
  unfold build_lp, mbind, M_bind, lift, read, mret, M_ret. simpl.
  rewrite (list_getitem_Ok _ _ _ Hr).
  rewrite (list_getitem_Ok _ _ _ Hc), (list_getitem_Ok _ _ _ Hn). done.
Qed.

(** After a match with a record that is missing or too short the lookup
    of the record raises. *)
Lemma find_longhurst_matched_no_record (x y : value F) (out : string)
    (g : Globals F Shape) (fx fy : F) (i : nat) :
  py_float x = Ok fx → py_float y = Ok fy →
  first_containing within fx fy (shapes g) i →
  records g !! i = None →
  classify x y out g = (Raise (IndexError "list index out of range"), g).
Proof.
  intros Hx Hy Hi Hr.
  unfold find_longhurst, mbind, M_bind, lift, read.
  rewrite Hx, Hy.
  pose proof (for_loop_break within fx fy (shapes g) [] false None i Hi) as Hloop.
  simpl in Hloop. rewrite Hloop. simpl.
  unfold build_lp, mbind, M_bind, lift, read, mret, M_ret. simpl.
  unfold list_getitem. by rewrite Hr.
Qed.

(** Without a match the dict is the sentinel; the records are not read. *)
Lemma find_longhurst_unmatched (x y : value F) (out : string) (g : Globals F Shape)
    (fx fy : F) :
  py_float x = Ok fx → py_float y = Ok fy →
  (∀ s, s ∈ shapes g → within fx fy s = false) →
  classify x y out g = (dict_getitem sentinel out, g).
Proof.
  intros Hx Hy Hnone.
  unfold find_longhurst, mbind, M_bind, lift, read.
  rewrite Hx, Hy.
  destruct (for_loop_fall_through within fx fy (shapes g) [] None Hnone) as [i Hloop].
  simpl in Hloop. rewrite Hloop. done.
Qed.

(** With parallel tables the record of a containing shape is there. *)
Lemma parallel_tables_record (g : Globals F Shape) (fx fy : F) (i : nat) :
  parallel_tables g → first_containing within fx fy (shapes g) i →
  ∃ r code name,
    records g !! i = Some r ∧ r !! 0%nat = Some code ∧ r !! 1%nat = Some name.
Proof.
  intros [Hlen Hrec] [[s [Hs _]] _].
  apply lookup_lt_Some in Hs.
  destruct (lookup_lt_is_Some_2 (records g) i) as [r Hr]; [lia|].
  pose proof (Forall_lookup_1 _ _ _ _ Hrec Hr) as Hr2. simpl in Hr2.
  destruct (lookup_lt_is_Some_2 r 0) as [code Hc]; [lia|].
  destruct (lookup_lt_is_Some_2 r 1) as [name Hn]; [lia|].
  by exists r, code, name.
Qed.

(** No run of the classifier changes the globals. *)
Lemma find_longhurst_read_only (x y : value F) (out : string) :
  read_only (classify x y out).
Proof.
  unfold find_longhurst.
  apply read_only_bind; [apply read_only_lift | intros fx].
  apply read_only_bind; [apply read_only_lift | intros fy].
  apply read_only_bind; [apply read_only_read | intros shp].
  apply read_only_bind; [apply read_only_lift | intros [is_in_poly i]].
  apply read_only_bind; [| intros lp; apply read_only_lift].
  unfold build_lp. destruct is_in_poly; [| apply read_only_ret].
  apply read_only_bind; [apply read_only_lift | intros i'].
  apply read_only_bind; [apply read_only_read | intros recs].
  apply read_only_bind; [apply read_only_lift | intros ri].
  apply read_only_bind; [apply read_only_lift | intros code].
  apply read_only_bind; [apply read_only_lift | intros ri'].
  apply read_only_bind; [apply read_only_lift | intros name].
  apply read_only_ret.
Qed.

End Classifier.

Section ClassifierClaims.
Context {F Shape : Type}.
Context (py_float : value F → result F) (within : F → F → Shape → bool).

Abbreviation classify' := (find_longhurst py_float within).

(** C1.  For coordinates that [float] accepts, the scan goes through the
    shapes in stored order: when [i] is the index of the first shape that
    contains the point, the result is field 0 (for ['code']) or field 1 (for
    ['name']) of record [i]; when no shape contains the point, the result
    is the sentinel, whose code is ["NOT_IN_PROV"].  One of the two cases
    always applies. *)
Theorem find_longhurst_first_match (x y : value F) (g : Globals F Shape) (fx fy : F) :
  py_float x = Ok fx → py_float y = Ok fy →
  (∀ i r code name,
     first_containing within fx fy (shapes g) i →
     records g !! i = Some r → r !! 0%nat = Some code → r !! 1%nat = Some name →
     classify' x y "code" g = (Ok code, g) ∧ classify' x y "name" g = (Ok name, g))
  ∧ ((∀ s, s ∈ shapes g → within fx fy s = false) →
     classify' x y "code" g = (Ok (VStr "NOT_IN_PROV"), g)
     ∧ classify' x y "name" g = (Ok (VStr not_in_prov_name), g))
  ∧ ((∃ i, first_containing within fx fy (shapes g) i)
     ∨ (∀ s, s ∈ shapes g → within fx fy s = false)).
Proof.
  intros Hx Hy. split; [|split].
  - intros i r code name Hi Hr Hc Hn. split.
    + rewrite (find_longhurst_matched _ _ _ _ _ _ _ _ _ _ _ _ Hx Hy Hi Hr Hc Hn).
      by rewrite dict_getitem_code.
    + rewrite (find_longhurst_matched _ _ _ _ _ _ _ _ _ _ _ _ Hx Hy Hi Hr Hc Hn).
      by rewrite dict_getitem_name.
  - intros Hnone. split.
    + rewrite (find_longhurst_unmatched _ _ _ _ _ _ _ _ Hx Hy Hnone).
      by rewrite dict_getitem_code.
    + rewrite (find_longhurst_unmatched _ _ _ _ _ _ _ _ Hx Hy Hnone).
      by rewrite dict_getitem_name.
  - apply scan_cases.
Qed.

(** C3.  For coordinates that [float] accepts and parallel shapefile
    tables, the results for ['code'] and for ['name'] are the two fields of
    one record: record [i] of the store for the same index [i], or the
    sentinel. *)
Theorem code_and_name_same_record (x y : value F) (g : Globals F Shape) (fx fy : F) :
  py_float x = Ok fx → py_float y = Ok fy → parallel_tables g →
  (∃ i r code name,
     first_containing within fx fy (shapes g) i
     ∧ records g !! i = Some r ∧ r !! 0%nat = Some code ∧ r !! 1%nat = Some name
     ∧ classify' x y "code" g = (Ok code, g)
     ∧ classify' x y "name" g = (Ok name, g))
  ∨ ((∀ s, s ∈ shapes g → within fx fy s = false)
     ∧ classify' x y "code" g = (Ok (VStr NOT_IN_PROV), g)
     ∧ classify' x y "name" g = (Ok (VStr not_in_prov_name), g)).
Proof.
  intros Hx Hy Hpar.
  destruct (scan_cases within fx fy (shapes g)) as [[i Hi] | Hnone].
  - left. destruct (parallel_tables_record within g fx fy i Hpar Hi)
      as (r & code & name & Hr & Hc & Hn).
    exists i, r, code, name.
    refine (conj Hi (conj Hr (conj Hc (conj Hn (conj _ _))))).
    + rewrite (find_longhurst_matched _ _ _ _ _ _ _ _ _ _ _ _ Hx Hy Hi Hr Hc Hn).
      by rewrite dict_getitem_code.
    + rewrite (find_longhurst_matched _ _ _ _ _ _ _ _ _ _ _ _ Hx Hy Hi Hr Hc Hn).
      by rewrite dict_getitem_name.
  - right. split; [done|]. split.
    + rewrite (find_longhurst_unmatched _ _ _ _ _ _ _ _ Hx Hy Hnone).
      by rewrite dict_getitem_code.
    + rewrite (find_longhurst_unmatched _ _ _ _ _ _ _ _ Hx Hy Hnone).
      by rewrite dict_getitem_name.
Qed.

(** What the classifier returns once both coordinates are converted and
    the tables are parallel: the lookup of [out] in a dict with the keys
    ['code'] and ['name']. *)
Lemma find_longhurst_converted (x y : value F) (out : string) (g : Globals F Shape)
    (fx fy : F) :
  py_float x = Ok fx → py_float y = Ok fy → parallel_tables g →
  ∃ code name : value F,
    classify' x y out g
    = (dict_getitem ({[ "code" := code; "name" := name ]} : gmap string (value F)) out, g).
Proof.
  intros Hx Hy Hpar.
  destruct (scan_cases within fx fy (shapes g)) as [[i Hi] | Hnone].
  - destruct (parallel_tables_record within g fx fy i Hpar Hi)
      as (r & code & name & Hr & Hc & Hn).
    exists code, name. by eapply find_longhurst_matched.
  - eexists _, _. by eapply find_longhurst_unmatched.
Qed.

(** C5.  With parallel shapefile tables, the classifier raises exactly
    when [float] rejects [x], or rejects [y], or [out] is neither ['code']
    nor ['name']; the exception is the one [float] raised, or the
    [KeyError] of the lookup of [out].  In particular nothing is raised for
    a well-formed input. *)
Theorem find_longhurst_raises_iff (x y : value F) (out : string) (g : Globals F Shape) :
  parallel_tables g →
  (raises (classify' x y out g).1
   ↔ raises (py_float x) ∨ raises (py_float y) ∨ (out ≠ "code" ∧ out ≠ "name"))
  ∧ ∀ e, (classify' x y out g).1 = Raise e →
         py_float x = Raise e ∨ py_float y = Raise e ∨ e = KeyError out.
Proof.
  intros Hpar.
  destruct (py_float x) as [fx | ex] eqn:Hx.
  2:{ rewrite (find_longhurst_bad_x _ _ _ _ _ _ _ Hx). simpl. split.
      - split; [intros _; left; by exists ex | intros _; by exists ex].
      - intros e He. left. congruence. }
  destruct (py_float y) as [fy | ey] eqn:Hy.
  2:{ rewrite (find_longhurst_bad_y _ _ _ _ _ _ _ _ Hx Hy). simpl. split.
      - split; [intros _; right; left; by exists ey | intros _; by exists ey].
      - intros e He. right. left. congruence. }
  destruct (find_longhurst_converted x y out g fx fy Hx Hy Hpar) as (code & name & Hrun).
  rewrite Hrun. simpl.
  destruct (decide (out = "code")) as [-> | Hc].
  { rewrite dict_getitem_code. split.
    - split; [intros [e He]; done | intros [[e He] | [[e He] | [Hne _]]]; done].
    - intros e He. done. }
  destruct (decide (out = "name")) as [-> | Hn].
  { rewrite dict_getitem_name. split.
    - split; [intros [e He]; done | intros [[e He] | [[e He] | [_ Hne]]]; done].
    - intros e He. done. }
  rewrite (dict_getitem_other _ _ _ Hc Hn). split.
  - split; [intros _; right; right; done | intros _; by eexists].
  - intros e He. right. right. congruence.
Qed.

(** C8.  A call of the classifier leaves the globals as they were, a second
    call with the same arguments gives the same outcome, and whatever runs
    after a call runs as if the call had not happened. *)
Theorem find_longhurst_deterministic (x y : value F) (out : string) (g : Globals F Shape) :
  (classify' x y out g).2 = g
  ∧ classify' x y out (classify' x y out g).2 = classify' x y out g
  ∧ ∀ (A : Type) (later : value F → M F Shape A) (v : value F),
      (classify' x y out g).1 = Ok v →
      (classify' x y out ≫= later) g = later v g.
Proof.
  pose proof (find_longhurst_read_only py_float within x y out g) as Hg.
  split; [done|]. split; [by rewrite Hg|].
  intros A later v Hv. unfold mbind, M_bind.
  destruct (classify' x y out g) as [r g']. simpl in *. by subst.
Qed.

(** C10.  For coordinates that [float] accepts and [out] one of ['code']
    and ['name'], when the shape sequence is empty or no shape contains the
    point the classifier returns the sentinel's field, whatever the records
    are: neither the loop index nor a record is consulted. *)
Theorem find_longhurst_total_unmatched (x y : value F) (g : Globals F Shape) (fx fy : F) :
  py_float x = Ok fx → py_float y = Ok fy →
  (shapes g = [] ∨ ∀ s, s ∈ shapes g → within fx fy s = false) →
  classify' x y "code" g = (Ok (VStr "NOT_IN_PROV"), g)
  ∧ classify' x y "name" g = (Ok (VStr not_in_prov_name), g).
Proof.
  intros Hx Hy Hcase.
  assert (∀ s, s ∈ shapes g → within fx fy s = false) as Hnone.
  { destruct Hcase as [Hnil | Hnone]; [|done].
    rewrite Hnil. intros s Hs. by apply elem_of_nil in Hs. }
  split.
  - rewrite (find_longhurst_unmatched _ _ _ _ _ _ _ _ Hx Hy Hnone).
    by rewrite dict_getitem_code.
  - rewrite (find_longhurst_unmatched _ _ _ _ _ _ _ _ Hx Hy Hnone).
    by rewrite dict_getitem_name.
Qed.

End ClassifierClaims.

(** ** Dicts built from items *)

Section PyDict.
Context `{Countable K} {V : Type}.

Lemma py_dict_foldl_notin (items : list (K * V)) (m : gmap K V) (k : K) :
  k ∉ items.*1 →
  foldl (λ m kv, <[kv.1 := kv.2]> m) m items !! k = m !! k.
Proof.
  revert m. induction items as [|[k' v'] items IH]; intros m Hk; [done|].
  simpl in *. apply not_elem_of_cons in Hk as [Hne Hk].
  rewrite IH by done. by rewrite lookup_insert_ne.
Qed.

Lemma py_dict_foldl_lookup (items : list (K * V)) (m : gmap K V) (k : K) (v : V) :
  NoDup items.*1 → (k, v) ∈ items →
  foldl (λ m kv, <[kv.1 := kv.2]> m) m items !! k = Some v.
Proof.
  revert m. induction items as [|[k' v'] items IH]; intros m Hnd Hin.
  - by apply elem_of_nil in Hin.
  - simpl in *. apply NoDup_cons in Hnd as [Hnotin Hnd].
    apply elem_of_cons in Hin as [Heq | Hin].
    + inversion Heq; subst k' v'.
      rewrite py_dict_foldl_notin by done. by rewrite lookup_insert_eq.
    + by apply IH.
Qed.

(** With distinct keys every item is found in the dict. *)
Lemma py_dict_lookup (items : list (K * V)) (k : K) (v : V) :
  NoDup items.*1 → (k, v) ∈ items → py_dict items !! k = Some v.
Proof. apply py_dict_foldl_lookup. Qed.

End PyDict.

(** ** longhurst_meta *)

Section Metadata.
Context {F Shape : Type}.

Lemma cell_eq_str_true (prov : string) (v : value F) :
  cell_eq_str prov v = true ↔ v = VStr prov.
Proof.
  destruct v as [s| | |]; simpl; try (split; [done | intros; discriminate]).
  rewrite bool_decide_eq_true. split; [by intros -> | by intros [= ->]].
Qed.

Lemma column_position_Some (label : string) (df : DataFrame F) (j : nat) :
  column_position label df = Some j → columns df !! j = Some label.
Proof.
  unfold column_position. intros Hpos.
  destruct (list_find _ _) as [[j' c]|] eqn:Hfind; [|done].
  simpl in Hpos. inversion Hpos; subst j'.
  apply list_find_Some in Hfind as (Hl & -> & _). done.
Qed.

Lemma column_position_elem (label : string) (df : DataFrame F) :
  label ∈ columns df → ∃ j, column_position label df = Some j.
Proof.
  intros Hin. unfold column_position.
  destruct (list_find_elem_of (λ c, c = label) (columns df) label Hin eq_refl)
    as [[j c] Hfind].
  exists j. by rewrite Hfind.
Qed.

Lemma row_items_keys (df : DataFrame F) (row : nat * list (value F)) :
  (row_items df row).*1 = columns df.
Proof.
  unfold row_items. apply list_eq. intros j.
  rewrite list_lookup_fmap, list_lookup_imap.
  by destruct (columns df !! j).
Qed.

Lemma row_items_elem (df : DataFrame F) (row : nat * list (value F)) (j : nat) (c : string) :
  columns df !! j = Some c → (c, cell j row) ∈ row_items df row.
Proof.
  intros Hc. unfold row_items. apply list_elem_of_lookup. exists j.
  rewrite list_lookup_imap. by rewrite Hc.
Qed.

(** The frame selected by [loc] has the matching rows. *)
Lemma loc_eq_matching_rows (df : DataFrame F) (prov : string) (j : nat) :
  column_position "PROVCODE" df = Some j →
  loc_eq df "PROVCODE" prov
  = Ok {| columns := columns df; rows := matching_rows prov df |}.
Proof.
  intros Hpos. unfold loc_eq, matching_rows, provcode. by rewrite Hpos.
Qed.

Lemma matching_rows_elem (df : DataFrame F) (prov : string) (row : nat * list (value F)) :
  row ∈ matching_rows prov df ↔ provcode df row = VStr prov ∧ row ∈ rows df.
Proof.
  unfold matching_rows. rewrite list_elem_of_filter. by rewrite cell_eq_str_true.
Qed.

Lemma matching_rows_nil (df : DataFrame F) (prov : string) :
  matching_rows prov df = [] ↔ ∀ row, row ∈ rows df → provcode df row ≠ VStr prov.
Proof.
  split.
  - intros Hnil row Hin Hrow.
    assert (row ∈ matching_rows prov df) as Hm by by apply matching_rows_elem.
    rewrite Hnil in Hm. by apply elem_of_nil in Hm.
  - intros Hnone. destruct (matching_rows prov df) as [|row l] eqn:Hm; [done|].
    assert (row ∈ matching_rows prov df) as Hin by (rewrite Hm; apply list_elem_of_here).
    apply matching_rows_elem in Hin as [Hrow Hin]. by destruct (Hnone row Hin).
Qed.

(** The run of the accessor on a code, once the table and its [PROVCODE]
    column are there. *)
Lemma longhurst_meta_code (prov : string) (g : Globals F Shape) (df : DataFrame F) (j : nat) :
  lmeta g = Some df → column_position "PROVCODE" df = Some j →
  longhurst_meta (Some prov) g
  = (match matching_rows prov df with
     | [] => Raise (ValueError "invalid province code")
     | _ => squeeze_to_dict {| columns := columns df; rows := matching_rows prov df |}
     end, g).
Proof.
  intros Hg Hpos. unfold longhurst_meta, mbind, M_bind, global, lift.
  rewrite Hg, (loc_eq_matching_rows df prov j Hpos). unfold shape0. simpl.
  by destruct (matching_rows prov df).
Qed.

(** [squeeze().to_dict()] raises nothing but the [AttributeError]. *)
Lemma squeeze_to_dict_raises (df : DataFrame F) (e : exn) :
  squeeze_to_dict df = Raise e →
  e = AttributeError "'str' object has no attribute 'to_dict'".
Proof.
  unfold squeeze_to_dict.
  destruct (rows df) as [|r [|r' rs]], (columns df) as [|c [|c' cs]];
    intros Heq; by inversion Heq.
Qed.

Lemma longhurst_meta_read_only (prov : option string) :
  read_only (longhurst_meta prov : M F Shape (provmeta F)).
Proof.
  unfold longhurst_meta. destruct prov as [prov|].
  - apply read_only_bind; [apply read_only_global | intros df].
    apply read_only_bind; [apply read_only_lift | intros df'].
    destruct (bool_decide _); apply read_only_lift.
  - apply read_only_bind; [apply read_only_global | intros df].
    apply read_only_ret.
Qed.

End Metadata.

Section MetadataClaims.
Context {F Shape : Type}.
Context (py_float : value F → result F) (within : F → F → Shape → bool).

(** C4.  With the table loaded and its [PROVCODE] column there, the
    accessor called with a code raises [ValueError("invalid province code")]
    exactly when no row of the table has that code in [PROVCODE].  The
    classifier, on a point that no shape contains, raises nothing: it
    returns the value ["NOT_IN_PROV"]. *)
Theorem longhurst_meta_invalid_code_iff (prov : string) (g : Globals F Shape)
    (df : DataFrame F) :
  lmeta g = Some df → "PROVCODE" ∈ columns df →
  ((longhurst_meta (Some prov) g).1 = Raise (ValueError "invalid province code")
   ↔ ∀ row, row ∈ rows df → provcode df row ≠ VStr prov)
  ∧ ∀ x y fx fy,
      py_float x = Ok fx → py_float y = Ok fy →
      (∀ s, s ∈ shapes g → within fx fy s = false) →
      (find_longhurst py_float within x y "code" g).1 = Ok (VStr "NOT_IN_PROV").
Proof.
  intros Hg Hcol. split.
  - destruct (column_position_elem "PROVCODE" df Hcol) as [j Hpos].
    rewrite (longhurst_meta_code prov g df j Hg Hpos). simpl.
    rewrite <- matching_rows_nil.
    destruct (matching_rows prov df) as [|row l] eqn:Hm; [done|].
    split; [|done]. intros Hraise.
    apply squeeze_to_dict_raises in Hraise. discriminate.
  - intros x y fx fy Hx Hy Hnone.
    rewrite (find_longhurst_unmatched _ _ _ _ _ _ _ _ Hx Hy Hnone).
    simpl. by rewrite dict_getitem_code.
Qed.

(** C7.  With the table loaded, its column labels distinct, [PROVCODE]
    among them and more than one column, a code that matches exactly one
    row gets a dict from column label to value whose [PROVCODE] entry is
    the code. *)
Theorem longhurst_meta_valid_code (prov : string) (g : Globals F Shape) (df : DataFrame F) :
  lmeta g = Some df →
  NoDup (columns df) → "PROVCODE" ∈ columns df → (2 ≤ length (columns df))%nat →
  length (matching_rows prov df) = 1%nat →
  ∃ (row : nat * list (value F)) (d : gmap string (value F)),
    matching_rows prov df = [row]
    ∧ longhurst_meta (Some prov) g = (Ok (MetaRecord d), g)
    ∧ d = py_dict (row_items df row)
    ∧ d !! "PROVCODE" = Some (VStr prov).
Proof.
  intros Hg Hnd Hcol Hlen Hone.
  destruct (column_position_elem "PROVCODE" df Hcol) as [j Hpos].
  destruct (matching_rows prov df) as [|row [|row' l]] eqn:Hm; try done.
  exists row, (py_dict (row_items df row)).
  split; [done|]. split; [|split; [done|]].
  - rewrite (longhurst_meta_code prov g df j Hg Hpos), Hm.
    unfold squeeze_to_dict. simpl.
    destruct (columns df) as [|c [|c' cs]] eqn:Hcols; simpl in Hlen; try lia.
    unfold row_items. simpl. by rewrite Hcols.
  - assert (row ∈ matching_rows prov df) as Hin by (rewrite Hm; apply list_elem_of_here).
    apply matching_rows_elem in Hin as [Hrow _].
    unfold provcode in Hrow. rewrite Hpos in Hrow. rewrite <- Hrow.
    apply py_dict_lookup.
    + by rewrite row_items_keys.
    + apply row_items_elem. by apply column_position_Some.
Qed.

(** C9.  The classifier and the accessor, with or without a code, leave
    the globals (the shapes, the records and the metadata table) as they
    were; the accessor without a code returns the stored table. *)
Theorem public_operations_preserve_globals (x y : value F) (out : string)
    (prov : option string) (g : Globals F Shape) :
  (find_longhurst py_float within x y out g).2 = g
  ∧ (longhurst_meta prov g).2 = g
  ∧ ∀ df, lmeta g = Some df → longhurst_meta None g = (Ok (MetaTable df), g).
Proof.
  split; [apply find_longhurst_read_only|]. split; [apply longhurst_meta_read_only|].
  intros df Hg. unfold longhurst_meta, mbind, M_bind, global. by rewrite Hg.
Qed.

End MetadataClaims.

(** ** The module-level load *)

Section Load.
Context {F Shape : Type}.

Lemma open_shapefile_raise (fs : Files F Shape) (e : exn) :
  shapefile_Reader fs fpath_shapefile = Raise e →
  open_shapefile fs
  = ([if contains "Unable to open" (str e) then shapefile_not_found_message
      else shapefile_error_message e], None).
Proof.
  intros He. unfold open_shapefile. rewrite He.
  by destruct (contains _ _).
Qed.

Lemma open_shapefile_ok (fs : Files F Shape) (sf : Reader F Shape) :
  shapefile_Reader fs fpath_shapefile = Ok sf → open_shapefile fs = ([], Some sf).
Proof. intros Hsf. unfold open_shapefile. by rewrite Hsf. Qed.

Lemma open_metadata_other (fs : Files F Shape) (e : exn) :
  read_csv fs fpath_csv ";" = Raise e → (∀ msg, e ≠ FileNotFoundError msg) →
  open_metadata fs = ([], Raise e).
Proof.
  intros He Hne. unfold open_metadata. rewrite He.
  destruct e; try done. by destruct (Hne msg).
Qed.

(** C6, as the module does it.  A shapefile that cannot be opened: one
    message is printed, the instructions (expected location, download
    address, unzip) when the exception text has ["Unable to open"] and the
    exception text behind a fixed heading otherwise, and the import then
    ends with [NameError] on [sf].  An exception of [shapes()] or
    [records()] ends the import as it is.  A metadata file that is not
    there: the message with the address of the source and the preprocessing
    is printed and the import completes with [lmeta] unbound, so that the
    accessor raises [NameError]; any other exception of [read_csv] ends the
    import as it is, with nothing printed. *)
Theorem module_init_reports (fs : Files F Shape) :
  (∀ e, shapefile_Reader fs fpath_shapefile = Raise e →
        module_init fs
        = ([if contains "Unable to open" (str e) then shapefile_not_found_message
            else "Error when reading Longhurst shapefile:" +:+ nl +:+ nl +:+ str e],
           Raise (NameError "sf")))
  ∧ (∀ sf e, shapefile_Reader fs fpath_shapefile = Ok sf →
             sf_shapes sf = Raise e ∨ (∃ shp, sf_shapes sf = Ok shp ∧ sf_records sf = Raise e) →
             module_init fs = ([], Raise e))
  ∧ (∀ sf shp recs,
       shapefile_Reader fs fpath_shapefile = Ok sf →
       sf_shapes sf = Ok shp → sf_records sf = Ok recs →
       (∀ msg, read_csv fs fpath_csv ";" = Raise (FileNotFoundError msg) →
               module_init fs
               = ([csv_not_found_message],
                  Ok {| shapes := shp; records := recs; lmeta := None |})
               ∧ ∀ prov, longhurst_meta prov
                           {| shapes := shp; records := recs; lmeta := None |}
                         = (Raise (NameError "lmeta"),
                            {| shapes := shp; records := recs; lmeta := None |}))
       ∧ (∀ e, read_csv fs fpath_csv ";" = Raise e →
               (∀ msg, e ≠ FileNotFoundError msg) →
               module_init fs = ([], Raise e))
       ∧ (∀ df, read_csv fs fpath_csv ";" = Ok df →
                module_init fs
                = ([], Ok {| shapes := shp; records := recs; lmeta := Some df |})))
  ∧ (contains "rawdata/longhurst/" shapefile_not_found_message = true
     ∧ contains "https://www.marineregions.org/downloads.php#longhurst"
         shapefile_not_found_message = true
     ∧ contains "unzip" shapefile_not_found_message = true
     ∧ contains fpath_csv csv_not_found_message = true
     ∧ contains "https://www.marineregions.org/sources.php#longhurst"
         csv_not_found_message = true
     ∧ contains "Remove pre-header lines and empty columns" csv_not_found_message = true
     ∧ contains "convert to ';'-separated .csv" csv_not_found_message = true).
Proof.
  split; [|split; [|split]].
  - intros e He. unfold module_init.
    by rewrite (open_shapefile_raise fs e He).
  - intros sf e Hsf Hcase. unfold module_init.
    rewrite (open_shapefile_ok fs sf Hsf).
    destruct Hcase as [Hs | [shp [Hs Hr]]]; rewrite Hs; [done|]. by rewrite Hr.
  - intros sf shp recs Hsf Hs Hr. split; [|split].
    + intros msg Hcsv. split.
      * unfold module_init. rewrite (open_shapefile_ok fs sf Hsf), Hs, Hr.
        unfold open_metadata. by rewrite Hcsv.
      * by intros [prov|].
    + intros e Hcsv Hne. unfold module_init.
      rewrite (open_shapefile_ok fs sf Hsf), Hs, Hr.
      by rewrite (open_metadata_other fs e Hcsv Hne).
    + intros df Hcsv. unfold module_init.
      rewrite (open_shapefile_ok fs sf Hsf), Hs, Hr.
      unfold open_metadata. by rewrite Hcsv.
  - repeat split; vm_compute; reflexivity.
Qed.

End Load.

(** ** Location of a point *)

Section Location.
Import Geometry.
Local Open Scope Q_scope.

(** The boolean comparisons, as propositions. *)
Lemma Qltb_true (a b : Q) : Qltb a b = true ↔ a < b.
Proof.
  unfold Qltb. rewrite Qlt_alt. destruct (a ?= b); split; congruence.
Qed.

Lemma Qltb_false (a b : Q) : Qltb a b = false ↔ b <= a.
Proof.
  rewrite <- not_true_iff_false, Qltb_true. split; [apply Qnot_lt_le | apply Qle_not_lt].
Qed.

Lemma Qle_bool_false (a b : Q) : Qle_bool a b = false ↔ b < a.
Proof.
  rewrite <- not_true_iff_false, Qle_bool_iff. split; [apply Qnot_le_lt | apply Qlt_not_le].
Qed.

Lemma Qeq_bool_false (a b : Q) : Qeq_bool a b = false ↔ ¬ a == b.
Proof. by rewrite <- not_true_iff_false, Qeq_bool_iff. Qed.

Ltac q_reflect :=
  repeat match goal with
         | H : Qltb _ _ = true |- _ => apply Qltb_true in H
         | H : Qltb _ _ = false |- _ => apply Qltb_false in H
         | H : Qle_bool _ _ = true |- _ => apply Qle_bool_iff in H
         | H : Qle_bool _ _ = false |- _ => apply Qle_bool_false in H
         | H : Qeq_bool _ _ = true |- _ => apply Qeq_bool_iff in H
         | H : Qeq_bool _ _ = false |- _ => apply Qeq_bool_false in H
         end.

(** A segment that ends at the point puts the point on the ring. *)
Lemma count_segment_same_end (p p1 p2 : coord) (st : bool * nat) :
  same_point p p2 → (count_segment p p1 p2 st).1 = true.
Proof.
  intros [Hx Hy]. unfold count_segment.
  assert (Qltb p2.1 p.1 = false) as -> by (apply Qltb_false; lra).
  rewrite andb_false_r.
  assert (Qeq_bool p.1 p2.1 = true) as -> by by apply Qeq_bool_iff.
  assert (Qeq_bool p.2 p2.2 = true) as -> by by apply Qeq_bool_iff.
  done.
Qed.

(** On a line that is not horizontal the height fixes the point. *)
Lemma collinear_same_x (ax ay bx by_ px py : Q) :
  (bx - ax) * (py - ay) == (by_ - ay) * (px - ax) →
  py == by_ → ¬ ay == by_ → px == bx.
Proof.
  intros Hcol Hy Hne.
  assert ((by_ - ay) * (px - bx) == 0) as Hz by (rewrite Hy in Hcol; lra).
  apply Qmult_integral in Hz as [Hz | Hz]; [destruct Hne; lra | lra].
Qed.

(** A point of a segment is seen on it, unless it is the start of the
    segment: the start is left to the segment before. *)
Lemma count_segment_on (p p1 p2 : coord) (st : bool * nat) :
  on_segment p p1 p2 → ¬ same_point p p1 → (count_segment p p1 p2 st).1 = true.
Proof.
  destruct p as [px py], p1 as [ax ay], p2 as [bx by_].
  unfold on_segment, same_point, between, count_segment. cbn [fst snd].
  intros (Hori & Hbx & Hby) Hne.
  pose proof Hori as Hcol. unfold orientation_index in Hcol. cbn [fst snd] in Hcol.
  apply Qeq_alt in Hcol.
  destruct (Qltb ax px && Qltb bx px) eqn:Hleft.
  { apply andb_true_iff in Hleft as [H1 H2]. q_reflect. lra. }
  destruct (Qeq_bool px bx && Qeq_bool py by_) eqn:Hend; [done|].
  destruct (Qeq_bool ay py && Qeq_bool by_ py) eqn:Hhor.
  { apply andb_true_iff in Hhor as [H1 H2].
    assert (Qle_bool (if Qltb bx ax then bx else ax) px
            && Qle_bool px (if Qltb bx ax then ax else bx) = true) as ->; [|done].
    apply andb_true_iff.
    destruct (Qltb bx ax) eqn:Hlt; q_reflect; rewrite !Qle_bool_iff; lra. }
  destruct ((Qltb py ay && Qle_bool by_ py) || (Qltb py by_ && Qle_bool ay py)) eqn:Hcross.
  { by rewrite Hori. }
  exfalso.
  apply orb_false_iff in Hcross as [Hc1 Hc2].
  apply andb_false_iff in Hend, Hhor, Hc1, Hc2.
  destruct Hby as [[Hlo Hhi] | [Hlo Hhi]].
  - assert (py == by_) as Hpy.
    { destruct Hc2 as [Hc2 | Hc2]; q_reflect; lra. }
    assert (¬ ay == by_) as Hay.
    { intros Heq. destruct Hhor as [Hh | Hh]; q_reflect; lra. }
    pose proof (collinear_same_x ax ay bx by_ px py Hcol Hpy Hay) as Hpx.
    destruct Hend as [He | He]; q_reflect; lra.
  - assert (py == ay) as Hpy.
    { destruct Hc1 as [Hc1 | Hc1]; q_reflect; lra. }
    assert (¬ by_ == ay) as Hay.
    { intros Heq. destruct Hhor as [Hh | Hh]; q_reflect; lra. }
    assert ((ax - bx) * (py - by_) == (ay - by_) * (px - bx)) as Hcol' by lra.
    pose proof (collinear_same_x bx by_ ax ay px py Hcol' Hpy Hay) as Hpx.
    apply Hne. split; lra.
Qed.

(** Once the point is on a segment it stays so. *)
Lemma count_segment_sticky (p p1 p2 : coord) (st : bool * nat) :
  st.1 = true → (count_segment p p1 p2 st).1 = true.
Proof.
  intros Hst. unfold count_segment.
  repeat (case_match; simpl; try done).
Qed.

Lemma count_ring_sticky (p : coord) (r : ring) (st : bool * nat) :
  st.1 = true → (count_ring p r st).1 = true.
Proof.
  revert st. induction r as [|p1 r IH]; intros st Hst; [done|].
  destruct r as [|p2 r]; [done|].
  change ((count_ring p (p2 :: r) (count_segment p p1 p2 st)).1 = true).
  apply IH. by apply count_segment_sticky.
Qed.

(** A segment that sees the point settles the ring. *)
Lemma count_ring_segment (p p1 p2 : coord) (r : ring) (st : bool * nat) :
  (p1, p2) ∈ segments r → (∀ st', (count_segment p p1 p2 st').1 = true) →
  (count_ring p r st).1 = true.
Proof.
  intros Hin Hseg. revert st Hin. induction r as [|a r IH]; intros st Hin.
  - by apply elem_of_nil in Hin.
  - destruct r as [|b r]; [by apply elem_of_nil in Hin|].
    change ((count_ring p (b :: r) (count_segment p a b st)).1 = true).
    change ((p1, p2) ∈ (a, b) :: segments (b :: r)) in Hin.
    apply elem_of_cons in Hin as [Heq | Hin].
    + inversion Heq; subst a b. apply count_ring_sticky, Hseg.
    + by apply IH.
Qed.

(** Every vertex but the first ends a segment; a segment starts at the
    first vertex or at a later one; the last vertex is not the first. *)
Lemma segments_into (v : coord) (r : ring) :
  v ∈ tail r → ∃ u, (u, v) ∈ segments r.
Proof.
  induction r as [|a r IH]; intros Hin.
  - by apply elem_of_nil in Hin.
  - simpl in Hin. destruct r as [|b r]; [by apply elem_of_nil in Hin|].
    change (∃ u, (u, v) ∈ (a, b) :: segments (b :: r)).
    apply elem_of_cons in Hin as [-> | Hin].
    + exists a. apply list_elem_of_here.
    + destruct (IH Hin) as [u Hu]. exists u. by apply list_elem_of_further.
Qed.

Lemma segments_from (p1 p2 : coord) (r : ring) :
  (p1, p2) ∈ segments r → head r = Some p1 ∨ p1 ∈ tail r.
Proof.
  induction r as [|a r IH]; intros Hin.
  - by apply elem_of_nil in Hin.
  - destruct r as [|b r]; [by apply elem_of_nil in Hin|].
    change ((p1, p2) ∈ (a, b) :: segments (b :: r)) in Hin.
    apply elem_of_cons in Hin as [Heq | Hin].
    + inversion Heq; subst a b. by left.
    + right. simpl. destruct (IH Hin) as [Hhead | Htail].
      * simpl in Hhead. inversion Hhead. apply list_elem_of_here.
      * by apply list_elem_of_further.
Qed.

Lemma segments_last (p1 p2 q : coord) (r : ring) :
  (p1, p2) ∈ segments r → last r = Some q → q ∈ tail r.
Proof.
  destruct r as [|a [|b r]]; intros Hin Hlast;
    [by apply elem_of_nil in Hin | by apply elem_of_nil in Hin |].
  rewrite last_cons_cons in Hlast. simpl. by apply last_Some_elem_of.
Qed.

Lemma same_point_trans (p q r : coord) : same_point p q → same_point q r → same_point p r.
Proof. intros [H1 H2] [H3 H4]. split; lra. Qed.

(** In a closed ring a point of a segment is on the boundary. *)
Lemma locate_in_ring_on_ring (p : coord) (r : ring) :
  closed r → on_ring p r → locate_in_ring p r = Boundary.
Proof.
  intros (h & q & Hhead & Hlast & Hhq) (p1 & p2 & Hin & Hon).
  unfold locate_in_ring.
  assert ((count_ring p r (false, 0%nat)).1 = true) as ->; [|done].
  assert (∀ v, v ∈ tail r → same_point p v → (count_ring p r (false, 0%nat)).1 = true)
    as Hvertex.
  { intros v Hv Hpv. destruct (segments_into v r Hv) as [u Hu].
    apply (count_ring_segment p u v r _ Hu). intros st'.
    by apply count_segment_same_end. }
  destruct (Qeq_bool p.1 p1.1 && Qeq_bool p.2 p1.2) eqn:Hsame.
  - apply andb_true_iff in Hsame as [Hx Hy]. q_reflect.
    assert (same_point p p1) as Hpp1 by done.
    destruct (segments_from p1 p2 r Hin) as [Hh | Ht].
    + rewrite Hhead in Hh. inversion Hh; subst h.
      apply (Hvertex q); [by eapply segments_last | by eapply same_point_trans].
    + by apply (Hvertex p1).
  - apply (count_ring_segment p p1 p2 r _ Hin). intros st'.
    apply count_segment_on; [done|]. intros [Hx Hy].
    apply andb_false_iff in Hsame as [Hs | Hs]; q_reflect; by destruct Hs.
Qed.

Lemma locate_polygon_on_exterior (p : coord) (poly : Polygon) :
  closed (exterior poly) → on_ring p (exterior poly) → locate p [poly] = Boundary.
Proof.
  intros Hc Hon. unfold locate, locate_in_polygon. simpl.
  by rewrite (locate_in_ring_on_ring p _ Hc Hon).
Qed.

Lemma within_interior (x y : Q) (shp : MultiPolygon) :
  within x y shp = true ↔ locate (x, y) shp = Interior.
Proof. unfold within. by destruct (locate (x, y) shp). Qed.

(** C2, as the module does it.  The containment test holds exactly for
    a point located in the interior of the shape.  A point on the boundary
    is not contained: so it is for every point on a segment of the closed
    exterior ring of a polygon.  The classifier returns the record of the first shape whose
    interior has the point, and the sentinel when no shape has the point in
    its interior, also when the point is on the boundary of some of them. *)
Theorem within_is_interior_only (py_float : value Q → result Q)
    (x y : value Q) (qx qy : Q) (g : Globals Q MultiPolygon) :
  py_float x = Ok qx → py_float y = Ok qy →
  (∀ shp, within qx qy shp = true ↔ locate (qx, qy) shp = Interior)
  ∧ (∀ shp, locate (qx, qy) shp = Boundary → within qx qy shp = false)
  ∧ (∀ poly, closed (exterior poly) → on_ring (qx, qy) (exterior poly) →
             locate (qx, qy) [poly] = Boundary ∧ within qx qy [poly] = false)
  ∧ (∀ i r code name,
       first_containing within qx qy (shapes g) i →
       records g !! i = Some r → r !! 0%nat = Some code → r !! 1%nat = Some name →
       find_longhurst py_float within x y "code" g = (Ok code, g)
       ∧ find_longhurst py_float within x y "name" g = (Ok name, g))
  ∧ ((∀ shp, shp ∈ shapes g → locate (qx, qy) shp ≠ Interior) →
     find_longhurst py_float within x y "code" g = (Ok (VStr "NOT_IN_PROV"), g)).
Proof.
  intros Hx Hy. split; [intros shp; apply within_interior|].
  split; [by intros shp Hloc; unfold within; rewrite Hloc|].
  split; [|split].
  - intros poly Hc Hon. pose proof (locate_polygon_on_exterior _ _ Hc Hon) as Hloc.
    split; [done|]. unfold within. by rewrite Hloc.
  - intros i r code name Hi Hr Hc Hn.
    rewrite !(find_longhurst_matched _ _ _ _ _ _ _ _ _ _ _ _ Hx Hy Hi Hr Hc Hn).
    by rewrite dict_getitem_code, dict_getitem_name.
  - intros Hnone.
    assert (∀ shp, shp ∈ shapes g → within qx qy shp = false) as Hout.
    { intros shp Hin. specialize (Hnone shp Hin).
      unfold within. by destruct (locate (qx, qy) shp). }
    rewrite (find_longhurst_unmatched _ _ _ _ _ _ _ _ Hx Hy Hout).
    by rewrite dict_getitem_code.
Qed.

End Location.

(** ** The theorems on two squares *)

Section TwoSquares.
Import Geometry.
Local Open Scope Q_scope.

Abbreviation run := (find_longhurst float_of_number within).
Abbreviation half := (VFloat (1 # 2)).

Lemma two_squares_parallel : parallel_tables two_squares.
Proof. split; [simpl; lia | repeat constructor]. Defined.

Lemma two_squares_first : first_containing within (1 # 2) (1 # 2) (shapes two_squares) 0.
Proof. apply first_containing_head. reflexivity. Defined.

(** A point far from both squares. *)
Lemma two_squares_outside (s : MultiPolygon) :
  s ∈ shapes two_squares → within 5 (1 # 2) s = false.
Proof.
  intros Hs. apply list_elem_of_In in Hs. simpl in Hs.
  destruct Hs as [<- | [<- | []]]; reflexivity.
Defined.

(** A point on the edge that the two squares share. *)
Lemma two_squares_shared_edge (s : MultiPolygon) :
  s ∈ shapes two_squares → locate (1, 1 # 2) s = Boundary.
Proof.
  intros Hs. apply list_elem_of_In in Hs. simpl in Hs.
  destruct Hs as [<- | [<- | []]]; reflexivity.
Defined.

Lemma find_longhurst_first_match_witness :
  run half half "code" two_squares = (Ok (VStr "SQA"), two_squares)
  ∧ run half half "name" two_squares = (Ok (VStr "Square A"), two_squares).
Proof.
  apply (proj1 (find_longhurst_first_match float_of_number within half half
                  two_squares (1 # 2) (1 # 2) eq_refl eq_refl)
           0%nat [VStr "SQA"; VStr "Square A"] (VStr "SQA") (VStr "Square A")
           two_squares_first eq_refl eq_refl eq_refl).
Defined.

Lemma code_and_name_same_record_witness :
  (∃ i r code name,
     first_containing within (3 # 2) (1 # 2) (shapes two_squares) i
     ∧ records two_squares !! i = Some r
     ∧ r !! 0%nat = Some code ∧ r !! 1%nat = Some name
     ∧ run (VFloat (3 # 2)) half "code" two_squares = (Ok code, two_squares)
     ∧ run (VFloat (3 # 2)) half "name" two_squares = (Ok name, two_squares))
  ∨ ((∀ s, s ∈ shapes two_squares → within (3 # 2) (1 # 2) s = false)
     ∧ run (VFloat (3 # 2)) half "code" two_squares = (Ok (VStr NOT_IN_PROV), two_squares)
     ∧ run (VFloat (3 # 2)) half "name" two_squares
       = (Ok (VStr not_in_prov_name), two_squares)).
Proof.
  apply (code_and_name_same_record float_of_number within (VFloat (3 # 2)) half
           two_squares (3 # 2) (1 # 2) eq_refl eq_refl two_squares_parallel).
Defined.

Lemma find_longhurst_raises_iff_witness :
  (raises (run (VStr "east") half "code" two_squares).1
   ↔ raises (float_of_number (VStr "east")) ∨ raises (float_of_number half)
     ∨ ("code" ≠ "code" ∧ "code" ≠ "name"))
  ∧ ∀ e, (run (VStr "east") half "code" two_squares).1 = Raise e →
         float_of_number (VStr "east") = Raise e ∨ float_of_number half = Raise e
         ∨ e = KeyError "code".
Proof.
  apply (find_longhurst_raises_iff float_of_number within (VStr "east") half "code"
           two_squares two_squares_parallel).
Defined.

Lemma find_longhurst_deterministic_witness :
  (run half half "name" ≫= (λ v, run half half "name" ≫= (λ v', mret (v, v')))) two_squares
  = (Ok (VStr "Square A", VStr "Square A"), two_squares).
Proof.
  rewrite (proj2 (proj2 (find_longhurst_deterministic float_of_number within
                           half half "name" two_squares))
             _ _ (VStr "Square A") eq_refl).
  rewrite (proj2 (proj2 (find_longhurst_deterministic float_of_number within
                           half half "name" two_squares))
             _ _ (VStr "Square A") eq_refl).
  reflexivity.
Defined.

Lemma find_longhurst_total_unmatched_witness :
  run (VInt 5) half "code" two_squares = (Ok (VStr "NOT_IN_PROV"), two_squares)
  ∧ run (VInt 5) half "name" two_squares = (Ok (VStr not_in_prov_name), two_squares).
Proof.
  apply (find_longhurst_total_unmatched float_of_number within (VInt 5) half
           two_squares 5 (1 # 2) eq_refl eq_refl (or_intror two_squares_outside)).
Defined.

End TwoSquares.

Section TwoSquaresMetadata.
Import Geometry.
Local Open Scope Q_scope.

Abbreviation squares_table :=
  ({| columns := ["PROVCODE"; "PROVDESCR"];
      rows := [(0%nat, [VStr "SQA"; VStr "Square A"]);
               (1%nat, [VStr "SQB"; VStr "Square B"])] |} : DataFrame Q).

Lemma squares_table_columns : NoDup (columns squares_table).
Proof.
  apply NoDup_cons. split.
  - intros Hin. apply list_elem_of_In in Hin. simpl in Hin.
    destruct Hin as [Heq | []]. discriminate Heq.
  - apply NoDup_singleton.
Defined.

Lemma longhurst_meta_invalid_code_iff_witness :
  ((longhurst_meta (Some "ZZZZ") two_squares).1 = Raise (ValueError "invalid province code")
   ↔ ∀ row, row ∈ rows squares_table → provcode squares_table row ≠ VStr "ZZZZ")
  ∧ ∀ x y fx fy,
      float_of_number x = Ok fx → float_of_number y = Ok fy →
      (∀ s, s ∈ shapes two_squares → within fx fy s = false) →
      (find_longhurst float_of_number within x y "code" two_squares).1
      = Ok (VStr "NOT_IN_PROV").
Proof.
  apply (longhurst_meta_invalid_code_iff float_of_number within "ZZZZ" two_squares
           squares_table eq_refl).
  apply list_elem_of_here.
Defined.

Lemma longhurst_meta_valid_code_witness :
  ∃ (row : nat * list (value Q)) (d : gmap string (value Q)),
    matching_rows "SQB" squares_table = [row]
    ∧ longhurst_meta (Some "SQB") two_squares = (Ok (MetaRecord d), two_squares)
    ∧ d = py_dict (row_items squares_table row)
    ∧ d !! "PROVCODE" = Some (VStr "SQB").
Proof.
  apply (longhurst_meta_valid_code "SQB" two_squares squares_table eq_refl
           squares_table_columns).
  - apply list_elem_of_here.
  - simpl. lia.
  - reflexivity.
Defined.

Lemma public_operations_preserve_globals_witness :
  (find_longhurst float_of_number within (VFloat (1 # 2)) (VFloat (1 # 2)) "code"
     two_squares).2 = two_squares
  ∧ (longhurst_meta (Some "SQA") two_squares).2 = two_squares
  ∧ longhurst_meta None two_squares = (Ok (MetaTable squares_table), two_squares).
Proof.
  pose proof (public_operations_preserve_globals float_of_number within
                (VFloat (1 # 2)) (VFloat (1 # 2)) "code" (Some "SQA") two_squares)
    as (Hfind & Hmeta & _).
  pose proof (public_operations_preserve_globals float_of_number within
                (VFloat (1 # 2)) (VFloat (1 # 2)) "code" None two_squares)
    as (_ & _ & Htable).
  exact (conj Hfind (conj Hmeta (Htable squares_table eq_refl))).
Defined.

(** A table of the one column [PROVCODE]: the selected row is squeezed to
    its only cell, a string, and [to_dict] is not there. *)
Example longhurst_meta_single_column :
  (longhurst_meta (Some "SQA")
     {| shapes := shapes two_squares; records := records two_squares;
        lmeta := Some {| columns := ["PROVCODE"];
                         rows := [(0%nat, [VStr "SQA"]); (1%nat, [VStr "SQB"])] |} |}).1
  = Raise (AttributeError "'str' object has no attribute 'to_dict'").
Proof. reflexivity. Qed.

(** Without the [PROVCODE] column the selection itself raises. *)
Example longhurst_meta_no_provcode_column :
  (longhurst_meta (Some "SQA")
     {| shapes := shapes two_squares; records := records two_squares;
        lmeta := Some {| columns := ["CODE"]; rows := [(0%nat, [VStr "SQA"])] |} |}).1
  = Raise (KeyError "PROVCODE").
Proof. reflexivity. Qed.

(** C6, the claim as stated fails: the metadata file is missing, and the
    import completes. *)
Lemma missing_csv_import_completes :
  raises (read_csv files_without_csv fpath_csv ";")
  ∧ ¬ raises (module_init files_without_csv).2
  ∧ module_init files_without_csv
    = ([csv_not_found_message],
       Ok {| shapes := shapes two_squares; records := records two_squares;
             lmeta := None |}).
Proof.
  split; [by eexists|]. split; [|reflexivity].
  intros [e He]. discriminate He.
Qed.

Lemma module_init_reports_witness :
  module_init files_without_shapefile
  = ([shapefile_not_found_message], Raise (NameError "sf"))
  ∧ module_init files_without_csv
    = ([csv_not_found_message],
       Ok {| shapes := shapes two_squares; records := records two_squares;
             lmeta := None |}).
Proof.
  split.
  - apply (proj1 (module_init_reports files_without_shapefile)
             (OtherException "ShapefileException"
                ("Unable to open " +:+ fpath_shapefile +:+ ".dbf or "
                 +:+ fpath_shapefile +:+ ".shp."))
             eq_refl).
  - apply (proj1 (proj1 (proj2 (proj2 (module_init_reports files_without_csv)))
                    {| sf_shapes := Ok (shapes two_squares);
                       sf_records := Ok (records two_squares) |}
                    (shapes two_squares) (records two_squares)
                    eq_refl eq_refl eq_refl)
             ("[Errno 2] No such file or directory: " +:+ quote fpath_csv) eq_refl).
Defined.

(** C2, the claim as stated fails: the point (1, 1/2) is on the boundary
    of both squares, the containment test rejects it for both, and the
    classifier answers ["NOT_IN_PROV"]. *)
Lemma boundary_point_not_in_province :
  on_ring (1, 1 # 2) (exterior (square 0))
  ∧ locate (1, 1 # 2) [square 0] = Boundary
  ∧ locate (1, 1 # 2) [square 1] = Boundary
  ∧ within 1 (1 # 2) [square 0] = false
  ∧ within 1 (1 # 2) [square 1] = false
  ∧ find_longhurst float_of_number within (VFloat 1) (VFloat (1 # 2)) "code" two_squares
    = (Ok (VStr "NOT_IN_PROV"), two_squares).
Proof.
  split; [|repeat split; reflexivity].
  exists (0 + 1, 0), (0 + 1, 1). split.
  - apply list_elem_of_further, list_elem_of_here.
  - split; [reflexivity|]. split; left; split; vm_compute; discriminate.
Qed.

Lemma within_is_interior_only_witness :
  find_longhurst float_of_number within (VFloat 1) (VFloat (1 # 2)) "code" two_squares
  = (Ok (VStr "NOT_IN_PROV"), two_squares).
Proof.
  apply (proj2 (proj2 (proj2 (proj2
           (within_is_interior_only float_of_number (VFloat 1) (VFloat (1 # 2))
              1 (1 # 2) two_squares eq_refl eq_refl))))).
  intros shp Hin. rewrite (two_squares_shared_edge shp Hin). discriminate.
Defined.

(** Points of the squares, located. *)
Example locate_square_interior : locate (1 # 2, 1 # 2) [square 0] = Interior.
Proof. reflexivity. Qed.

Example locate_square_corner : locate (0, 0) [square 0] = Boundary.
Proof. reflexivity. Qed.

Example locate_square_outside : locate (-1, 1) [square 0] = Exterior.
Proof. reflexivity. Qed.

(** A square with a square hole: inside the hole is outside the polygon. *)
Example locate_in_hole :
  locate (1 # 2, 1 # 2)
    [{| exterior := [(0, 0); (1, 0); (1, 1); (0, 1); (0, 0)];
        interiors := [[(1 # 4, 1 # 4); (1 # 4, 3 # 4); (3 # 4, 3 # 4);
                       (3 # 4, 1 # 4); (1 # 4, 1 # 4)]] |}]
  = Exterior.
Proof. reflexivity. Qed.

End TwoSquaresMetadata.

(** * Further properties of the classifier *)

Section ClassifierRuns.
Context {F Shape : Type}.
Context (py_float : value F → result F) (within : F → F → Shape → bool).

Abbreviation find := (find_longhurst py_float within).

(** A run that stops at shape [i]: the dict is built from record [i], or
    building it raises, and then [out] is looked up. *)
Lemma find_longhurst_stops_at (x y : value F) (out : string) (g : Globals F Shape)
    (fx fy : F) (i : nat) :
  py_float x = Ok fx → py_float y = Ok fy →
  first_containing within fx fy (shapes g) i →
  find x y out g
  = (match lp_of_record (records g !! i) with
     | Ok lp => dict_getitem lp out
     | Raise e => Raise e
     end, g).
Proof.
  intros Hx Hy Hi.
  unfold find_longhurst, mbind, M_bind, lift, read.
  rewrite Hx, Hy.
  pose proof (for_loop_break within fx fy (shapes g) [] false None i Hi) as Hloop.
  simpl in Hloop. rewrite Hloop. simpl.
  unfold build_lp, mbind, M_bind, lift, read, mret, M_ret, lp_of_record, list_getitem.
  simpl. destruct (records g !! i) as [r|]; [|done].
  destruct (r !! 0%nat) as [code|]; [|done].
  destruct (r !! 1%nat) as [name|]; done.
Qed.

Lemma lp_of_record_raises (r : option (list (value F))) (e : exn) :
  lp_of_record r = Raise e ↔
  e = IndexError "list index out of range"
  ∧ (r = None ∨ ∃ r', r = Some r' ∧ (length r' < 2)%nat).
Proof.
  unfold lp_of_record. destruct r as [r|].
  - destruct r as [|code [|name r]]; simpl; split.
    + intros [= <-]. split; [done|]. right. exists []. split; [done | simpl; lia].
    + by intros [-> _].
    + intros [= <-]. split; [done|]. right. exists [code]. split; [done | simpl; lia].
    + by intros [-> _].
    + done.
    + intros [_ [Hn | (r' & [= <-] & Hlen)]]; [done | simpl in Hlen; lia].
  - split; [intros [= <-]; split; [done | by left] | by intros [-> _]].
Qed.

Lemma lp_of_record_keys (r : option (list (value F))) (lp : gmap string (value F))
    (out : string) (e : exn) :
  lp_of_record r = Ok lp → dict_getitem lp out = Raise e →
  e = KeyError out ∧ out ≠ "code" ∧ out ≠ "name".
Proof.
  unfold lp_of_record. intros Hlp Hget.
  destruct r as [r|]; [|done].
  destruct (r !! 0%nat) as [code|]; [|done].
  destruct (r !! 1%nat) as [name|]; [|done].
  inversion Hlp; subst lp.
  destruct (decide (out = "code")) as [-> | Hc];
    [by rewrite dict_getitem_code in Hget|].
  destruct (decide (out = "name")) as [-> | Hn];
    [by rewrite dict_getitem_name in Hget|].
  rewrite (dict_getitem_other _ _ _ Hc Hn) in Hget. by inversion Hget.
Qed.

(** X1.  Once both coordinates are converted, the classifier raises
    [IndexError] exactly when some shape contains the point and the record
    at the index of the first such shape is missing or has fewer than two
    fields; this is so for every [out], also for ['code'] when only the
    name is missing, since both fields are read before [out] is looked up. *)
Theorem find_longhurst_index_error_iff (x y : value F) (out : string)
    (g : Globals F Shape) (fx fy : F) :
  py_float x = Ok fx → py_float y = Ok fy →
  ((find x y out g).1 = Raise (IndexError "list index out of range")
   ↔ ∃ i, first_containing within fx fy (shapes g) i
          ∧ (records g !! i = None
             ∨ ∃ r, records g !! i = Some r ∧ (length r < 2)%nat)).
Proof.
  intros Hx Hy.
  destruct (scan_cases within fx fy (shapes g)) as [[i Hi] | Hnone].
  - rewrite (find_longhurst_stops_at x y out g fx fy i Hx Hy Hi). simpl.
    destruct (lp_of_record (records g !! i)) as [lp | e] eqn:Hlp; split.
    + intros Hget. destruct (lp_of_record_keys _ _ _ _ Hlp Hget) as [Hk _]. done.
    + intros (i' & Hi' & Hrec).
      rewrite (first_containing_unique within fx fy _ _ _ Hi' Hi) in Hrec.
      assert (lp_of_record (records g !! i) = Raise (IndexError "list index out of range"))
        as Hr by by apply lp_of_record_raises.
      congruence.
    + intros [= ->]. exists i. split; [done|]. by apply lp_of_record_raises in Hlp as [_ ?].
    + intros _. by apply lp_of_record_raises in Hlp as [-> _].
  - rewrite (find_longhurst_unmatched _ _ _ _ _ _ _ _ Hx Hy Hnone). simpl. split.
    + intros Hget.
      destruct (decide (out = "code")) as [-> | Hc];
        [by rewrite dict_getitem_code in Hget|].
      destruct (decide (out = "name")) as [-> | Hn];
        [by rewrite dict_getitem_name in Hget|].
      by rewrite (dict_getitem_other _ _ _ Hc Hn) in Hget.
    + intros (i & Hi & _). by destruct (first_containing_not_none within fx fy _ _ Hi).
Qed.


(** The shapes up to index [i] decide whether [i] is the first containing
    one. *)
Lemma first_containing_take (fx fy : F) (l l' : list Shape) (i : nat) :
  take (S i) l' = take (S i) l →
  first_containing within fx fy l i → first_containing within fx fy l' i.
Proof.
  intros Htake [[s [Hs Hin]] Hbefore].
  assert (∀ j, (j < S i)%nat → l' !! j = l !! j) as Hsame.
  { intros j Hj. rewrite <- (lookup_take_lt l' (S i) j Hj), Htake.
    by apply lookup_take_lt. }
  split.
  - exists s. split; [|done]. rewrite Hsame by lia. done.
  - intros j s' Hj Hs'. apply (Hbefore j s' Hj). rewrite <- Hsame by lia. done.
Qed.

(** X3.  When shape [i] is the first that contains the point, the result
    depends only on the shapes up to [i] and on record [i]: a store that
    agrees on these gives the same result, whatever shapes and records
    follow or are appended. *)
Theorem find_longhurst_prefix_only (x y : value F) (out : string)
    (g g' : Globals F Shape) (fx fy : F) (i : nat) :
  py_float x = Ok fx → py_float y = Ok fy →
  first_containing within fx fy (shapes g) i →
  take (S i) (shapes g') = take (S i) (shapes g) →
  records g' !! i = records g !! i →
  (find x y out g').1 = (find x y out g).1.
Proof.
  intros Hx Hy Hi Htake Hrec.
  pose proof (first_containing_take fx fy _ _ i Htake Hi) as Hi'.
  rewrite (find_longhurst_stops_at x y out g fx fy i Hx Hy Hi).
  rewrite (find_longhurst_stops_at x y out g' fx fy i Hx Hy Hi').
  simpl. by rewrite Hrec.
Qed.

(** The provinces that contain the point, and the scan. *)
Lemma containing_nil (fx fy : F) (provs : list (Shape * list (value F))) :
  containing within fx fy provs = [] →
  ∀ s, s ∈ provs.*1 → within fx fy s = false.
Proof.
  unfold containing. intros Hnil s Hs.
  apply list_elem_of_fmap in Hs as ([s' r] & -> & Hin). simpl.
  destruct (within fx fy s') eqn:Hw; [|done].
  assert ((s', r) ∈ filter (λ p, within fx fy p.1 = true) provs) as Hf
    by by apply list_elem_of_filter.
  rewrite Hnil in Hf. by apply elem_of_nil in Hf.
Qed.

Lemma containing_singleton (fx fy : F) (provs : list (Shape * list (value F)))
    (p : Shape * list (value F)) :
  containing within fx fy provs = [p] →
  ∃ i, first_containing within fx fy provs.*1 i ∧ provs.*2 !! i = Some p.2.
Proof.
  unfold containing. induction provs as [|q provs IH]; intros Hf; [done|].
  rewrite filter_cons in Hf. destruct (decide (within fx fy q.1 = true)) as [Hq | Hq].
  - inversion Hf; subst q. exists 0%nat. split; [|done].
    simpl. by apply first_containing_head.
  - destruct (IH Hf) as (i & [[s [Hs Hin]] Hbefore] & Hr). exists (S i). split; [|done].
    split; [by exists s|].
    intros [|j] s' Hj Hs'; simpl in Hs'.
    + inversion Hs'; subst s'. by destruct (within fx fy q.1).
    + apply (Hbefore j s'); [lia | done].
Qed.

(** X4.  When at most one province contains the point, the order of the
    provinces in the store does not matter: a store with the same
    provinces in another order gives the same result. *)
Theorem find_longhurst_order_irrelevant (x y : value F) (out : string)
    (provs provs' : list (Shape * list (value F))) (t t' : option (DataFrame F))
    (fx fy : F) :
  py_float x = Ok fx → py_float y = Ok fy →
  provs ≡ₚ provs' →
  (length (containing within fx fy provs) ≤ 1)%nat →
  (find x y out (store_of provs' t')).1 = (find x y out (store_of provs t)).1.
Proof.
  intros Hx Hy Hperm Hone.
  assert (containing within fx fy provs ≡ₚ containing within fx fy provs') as Hc
    by (unfold containing; by rewrite Hperm).
  destruct (containing within fx fy provs) as [|p [|p' l]] eqn:Hf; simpl in Hone; [| |lia].
  - symmetry in Hc. apply Permutation_nil_r in Hc.
    rewrite (find_longhurst_unmatched py_float within x y out (store_of provs t) fx fy Hx Hy
               (containing_nil fx fy provs Hf)).
    rewrite (find_longhurst_unmatched py_float within x y out (store_of provs' t') fx fy Hx Hy
               (containing_nil fx fy provs' Hc)).
    done.
  - symmetry in Hc. apply Permutation_singleton_r in Hc.
    destruct (containing_singleton fx fy provs p Hf) as (i & Hi & Hr).
    destruct (containing_singleton fx fy provs' p Hc) as (i' & Hi' & Hr').
    rewrite (find_longhurst_stops_at x y out (store_of provs t) fx fy i Hx Hy Hi).
    rewrite (find_longhurst_stops_at x y out (store_of provs' t') fx fy i' Hx Hy Hi').
    simpl. by rewrite Hr, Hr'.
Qed.

(** X5.  The classifier does not look at the metadata table: with the
    table replaced or unbound, as after an import without the metadata
    file, the result is the same. *)
Theorem find_longhurst_without_table (x y : value F) (out : string) (g : Globals F Shape)
    (t : option (DataFrame F)) :
  (find x y out {| shapes := shapes g; records := records g; lmeta := t |}).1
  = (find x y out g).1.
Proof.
  set (g' := {| shapes := shapes g; records := records g; lmeta := t |}).
  destruct (py_float x) as [fx | ex] eqn:Hx.
  2:{ by rewrite !(find_longhurst_bad_x _ _ _ _ _ _ _ Hx). }
  destruct (py_float y) as [fy | ey] eqn:Hy.
  2:{ by rewrite !(find_longhurst_bad_y _ _ _ _ _ _ _ _ Hx Hy). }
  destruct (scan_cases within fx fy (shapes g)) as [[i Hi] | Hnone].
  - rewrite (find_longhurst_stops_at x y out g fx fy i Hx Hy Hi).
    by rewrite (find_longhurst_stops_at x y out g' fx fy i Hx Hy Hi).
  - rewrite (find_longhurst_unmatched _ _ _ _ _ _ _ _ Hx Hy Hnone).
    by rewrite (find_longhurst_unmatched py_float within x y out g' fx fy Hx Hy Hnone).
Qed.

End ClassifierRuns.

(** * Further properties of the metadata accessor *)

Section PyDictLookup.
Context `{Countable K} {V : Type}.

Lemma py_dict_lookup_None (items : list (K * V)) (k : K) :
  k ∉ items.*1 → py_dict items !! k = None.
Proof.
  intros Hk. unfold py_dict. rewrite py_dict_foldl_notin by done. apply lookup_empty.
Qed.

Lemma py_dict_foldl_elem (items : list (K * V)) (m : gmap K V) (k : K) (v : V) :
  foldl (λ m kv, <[kv.1 := kv.2]> m) m items !! k = Some v →
  (k, v) ∈ items ∨ m !! k = Some v.
Proof.
  revert m. induction items as [|[k' v'] items IH]; intros m Hl; [by right|].
  simpl in Hl. destruct (IH _ Hl) as [Hin | Hm].
  - left. by apply list_elem_of_further.
  - destruct (decide (k' = k)) as [-> | Hne].
    + rewrite lookup_insert_eq in Hm. inversion Hm; subst v'.
      left. apply list_elem_of_here.
    + rewrite lookup_insert_ne in Hm by done. by right.
Qed.

(** An entry of the dict is one of the items. *)
Lemma py_dict_lookup_elem (items : list (K * V)) (k : K) (v : V) :
  py_dict items !! k = Some v → (k, v) ∈ items.
Proof.
  intros Hl. destruct (py_dict_foldl_elem items ∅ k v Hl) as [Hin | Hm]; [done|].
  by rewrite lookup_empty in Hm.
Qed.

Lemma py_dict_foldl_is_Some (items : list (K * V)) (m : gmap K V) (k : K) :
  k ∈ items.*1 ∨ is_Some (m !! k) →
  is_Some (foldl (λ m kv, <[kv.1 := kv.2]> m) m items !! k).
Proof.
  revert m. induction items as [|[k' v'] items IH]; intros m Hk.
  - destruct Hk as [Hk | Hk]; [by apply elem_of_nil in Hk | done].
  - simpl. apply IH. simpl in Hk.
    destruct (decide (k' = k)) as [-> | Hne].
    + right. rewrite lookup_insert_eq. by eexists.
    + destruct Hk as [Hk | Hk].
      * apply elem_of_cons in Hk as [Hk | Hk]; [congruence | by left].
      * right. by rewrite lookup_insert_ne.
Qed.

(** Every key among the items has an entry. *)
Lemma py_dict_lookup_is_Some (items : list (K * V)) (k : K) :
  k ∈ items.*1 → is_Some (py_dict items !! k).
Proof. intros Hk. apply py_dict_foldl_is_Some. by left. Qed.

End PyDictLookup.

Section MetadataRuns.
Context {F Shape : Type}.

Lemma column_position_None (label : string) (df : DataFrame F) :
  column_position label df = None → label ∉ columns df.
Proof.
  unfold column_position. intros Hpos Hin.
  destruct (column_position_elem label df Hin) as [j Hj].
  unfold column_position in Hj. congruence.
Qed.

Lemma provcode_cell (df : DataFrame F) (row : nat * list (value F)) (j : nat) :
  column_position "PROVCODE" df = Some j → provcode df row = cell j row.
Proof. intros Hpos. unfold provcode. by rewrite Hpos. Qed.

(** X6.  For a code that matches exactly one row (table loaded, column
    labels distinct, [PROVCODE] among them, more than one column) the dict
    returned has exactly the column labels as keys, and the entry of each
    label is the cell of the matching row in that column. *)
Theorem longhurst_meta_record_entries (prov : string) (g : Globals F Shape)
    (df : DataFrame F) (row : nat * list (value F)) :
  lmeta g = Some df →
  NoDup (columns df) → "PROVCODE" ∈ columns df → (2 ≤ length (columns df))%nat →
  matching_rows prov df = [row] →
  ∃ d : gmap string (value F),
    longhurst_meta (Some prov) g = (Ok (MetaRecord d), g)
    ∧ row ∈ rows df
    ∧ (∀ j c, columns df !! j = Some c → d !! c = Some (cell j row))
    ∧ (∀ c, c ∉ columns df → d !! c = None).
Proof.
  intros Hg Hnd Hcol Hlen Hm.
  destruct (column_position_elem "PROVCODE" df Hcol) as [j0 Hpos].
  exists (py_dict (row_items df row)). split; [|split; [|split]].
  - rewrite (longhurst_meta_code prov g df j0 Hg Hpos), Hm.
    unfold squeeze_to_dict. simpl.
    destruct (columns df) as [|c [|c' cs]] eqn:Hcols; simpl in Hlen; try lia.
    unfold row_items. simpl. by rewrite Hcols.
  - assert (row ∈ matching_rows prov df) as Hin by (rewrite Hm; apply list_elem_of_here).
    by apply matching_rows_elem in Hin as [_ ?].
  - intros j c Hc. apply py_dict_lookup.
    + by rewrite row_items_keys.
    + by apply row_items_elem.
  - intros c Hc. apply py_dict_lookup_None. by rewrite row_items_keys.
Qed.

Lemma frame_items_keys (df : DataFrame F) :
  (imap (λ j c, (c, py_dict (column_items j df))) (columns df)).*1 = columns df.
Proof.
  apply list_eq. intros j.
  rewrite list_lookup_fmap, list_lookup_imap.
  by destruct (columns df !! j).
Qed.

(** X7.  For a code that matches more than one row (table loaded, column
    labels distinct, [PROVCODE] among them, more than one column) the
    accessor raises nothing and returns no flat record: it returns a dict
    of columns, each a dict from row label to cell.  Its [PROVCODE] column
    has an entry for the label of every matching row, and every entry is
    the code. *)
Theorem longhurst_meta_duplicate_codes (prov : string) (g : Globals F Shape)
    (df : DataFrame F) :
  lmeta g = Some df →
  NoDup (columns df) → "PROVCODE" ∈ columns df → (2 ≤ length (columns df))%nat →
  (2 ≤ length (matching_rows prov df))%nat →
  ∃ (d : gmap string (gmap nat (value F))) (col : gmap nat (value F)),
    longhurst_meta (Some prov) g = (Ok (MetaFrame d), g)
    ∧ d !! "PROVCODE" = Some col
    ∧ (∀ row, row ∈ matching_rows prov df → is_Some (col !! row.1))
    ∧ (∀ l v, col !! l = Some v →
              v = VStr prov ∧ ∃ row, row ∈ matching_rows prov df ∧ row.1 = l).
Proof.
  intros Hg Hnd Hcol Hlen Hrows.
  destruct (column_position_elem "PROVCODE" df Hcol) as [j0 Hpos].
  set (df' := {| columns := columns df; rows := matching_rows prov df |}).
  exists (py_dict (imap (λ j c, (c, py_dict (column_items j df'))) (columns df'))),
         (py_dict (column_items j0 df')).
  split; [|split; [|split]].
  - rewrite (longhurst_meta_code prov g df j0 Hg Hpos). fold df'.
    destruct (matching_rows prov df) as [|r1 [|r2 rs]] eqn:Hm; simpl in Hrows; try lia.
    unfold squeeze_to_dict. subst df'. simpl.
    destruct (columns df) as [|c [|c' cs]] eqn:Hcols; simpl in Hlen; try lia.
    done.
  - apply py_dict_lookup.
    + by rewrite frame_items_keys.
    + apply list_elem_of_lookup. exists j0. rewrite list_lookup_imap.
      subst df'. simpl. by rewrite (column_position_Some _ _ _ Hpos).
  - intros row Hin. apply py_dict_lookup_is_Some.
    unfold column_items. subst df'. simpl.
    rewrite <- list_fmap_compose. apply list_elem_of_fmap. by exists row.
  - intros l v Hl. apply py_dict_lookup_elem in Hl.
    unfold column_items in Hl. subst df'. simpl in Hl.
    apply list_elem_of_fmap in Hl as (row & Heq & Hin). inversion Heq; subst l v.
    split; [|by exists row].
    apply matching_rows_elem in Hin as [Hrow _].
    by rewrite <- (provcode_cell df row j0 Hpos).
Qed.

(** X8.  From the exception of the accessor to its cause.  [NameError]:
    the table was never bound.  [KeyError]: a code was given and the table
    has no [PROVCODE] column.  [ValueError]: no row has the code.
    [AttributeError]: [PROVCODE] is the only column and one row has the
    code.  Nothing else is raised, and without a code a bound table is
    returned without exception. *)
Theorem longhurst_meta_exceptions (prov : option string) (g : Globals F Shape) (e : exn) :
  (longhurst_meta prov g).1 = Raise e →
  (e = NameError "lmeta" ∧ lmeta g = None)
  ∨ ∃ df code,
      lmeta g = Some df ∧ prov = Some code
      ∧ ((e = KeyError "PROVCODE" ∧ "PROVCODE" ∉ columns df)
         ∨ (e = ValueError "invalid province code"
            ∧ "PROVCODE" ∈ columns df ∧ matching_rows code df = [])
         ∨ (e = AttributeError "'str' object has no attribute 'to_dict'"
            ∧ columns df = ["PROVCODE"] ∧ length (matching_rows code df) = 1%nat)).
Proof.
  destruct (lmeta g) as [df|] eqn:Hg.
  2:{ intros He. left. split; [|done].
      destruct prov; unfold longhurst_meta, mbind, M_bind, global in He;
        rewrite Hg in He; simpl in He; congruence. }
  destruct prov as [code|].
  2:{ unfold longhurst_meta, mbind, M_bind, global. rewrite Hg. simpl. done. }
  intros He. right. exists df, code. split; [done|]. split; [done|].
  destruct (column_position "PROVCODE" df) as [j0|] eqn:Hpos.
  - assert ("PROVCODE" ∈ columns df) as Hcol.
    { apply list_elem_of_lookup. exists j0. by apply column_position_Some. }
    rewrite (longhurst_meta_code code g df j0 Hg Hpos) in He. simpl in He.
    destruct (matching_rows code df) as [|r1 rs] eqn:Hm.
    + right. left. split; [congruence | done].
    + right. right. pose proof (squeeze_to_dict_raises _ _ He) as ->.
      split; [done|]. unfold squeeze_to_dict in He. simpl in He.
      destruct rs as [|r2 rs], (columns df) as [|c [|c' cs]] eqn:Hcols;
        try discriminate He.
      split; [|done]. apply list_elem_of_singleton in Hcol. by subst c.
  - left. unfold longhurst_meta, mbind, M_bind, global, lift, loc_eq in He.
    rewrite Hg in He. simpl in He. rewrite Hpos in He. simpl in He.
    split; [congruence|]. by apply column_position_None.
Qed.

End MetadataRuns.

(** * The classifier and the accessor together *)

Section Together.
Context {F Shape : Type}.
Context (py_float : value F → result F) (within : F → F → Shape → bool).

(** X9.  The code that the classifier returns, given to the accessor
    (table loaded with a [PROVCODE] column).  For a point in no province the
    code is ["NOT_IN_PROV"], and with no such row in the table the accessor
    raises [ValueError] on it.  For a point whose first containing shape has
    a record with a string code, the accessor raises [ValueError] on that
    code when no row of the table has it: the two sources are not checked
    against each other. *)
Theorem find_longhurst_then_meta (x y : value F) (g : Globals F Shape) (fx fy : F)
    (df : DataFrame F) :
  py_float x = Ok fx → py_float y = Ok fy →
  lmeta g = Some df → "PROVCODE" ∈ columns df →
  ((∀ s, s ∈ shapes g → within fx fy s = false) →
   (∀ row, row ∈ rows df → provcode df row ≠ VStr NOT_IN_PROV) →
   find_longhurst py_float within x y "code" g = (Ok (VStr NOT_IN_PROV), g)
   ∧ longhurst_meta (Some NOT_IN_PROV) g
     = (Raise (ValueError "invalid province code"), g))
  ∧ (∀ i r code name,
       first_containing within fx fy (shapes g) i →
       records g !! i = Some r → r !! 0%nat = Some (VStr code) → r !! 1%nat = Some name →
       (∀ row, row ∈ rows df → provcode df row ≠ VStr code) →
       find_longhurst py_float within x y "code" g = (Ok (VStr code), g)
       ∧ longhurst_meta (Some code) g
         = (Raise (ValueError "invalid province code"), g)).
Proof.
  intros Hx Hy Hg Hcol.
  destruct (column_position_elem "PROVCODE" df Hcol) as [j0 Hpos].
  assert (∀ code, (∀ row, row ∈ rows df → provcode df row ≠ VStr code) →
                  longhurst_meta (Some code) g
                  = (Raise (ValueError "invalid province code"), g)) as Hmeta.
  { intros code Hnone. rewrite (longhurst_meta_code code g df j0 Hg Hpos).
    apply matching_rows_nil in Hnone. by rewrite Hnone. }
  split.
  - intros Hnone Hrows. split; [|by apply Hmeta].
    rewrite (find_longhurst_unmatched _ _ _ _ _ _ _ _ Hx Hy Hnone).
    by rewrite dict_getitem_code.
  - intros i r code name Hi Hr Hc Hn Hrows. split; [|by apply Hmeta].
    rewrite (find_longhurst_matched _ _ _ _ _ _ _ _ _ _ _ _ Hx Hy Hi Hr Hc Hn).
    by rewrite dict_getitem_code.
Qed.

End Together.

(** * Further properties of the load *)

Section Substring.

Lemma prefix_spec (needle hay : string) :
  String.prefix needle hay = true ↔ ∃ suf, hay = needle +:+ suf.
Proof.
  revert hay. induction needle as [|a needle IH]; intros hay.
  - split; [intros _; by exists hay | by destruct hay].
  - destruct hay as [|b hay]; simpl.
    + split; [done | intros [suf Hsuf]; discriminate Hsuf].
    + destruct (ascii_dec a b) as [<- | Hne].
      * rewrite IH. split; intros [suf Hsuf]; exists suf; [by rewrite Hsuf | by inversion Hsuf].
      * split; [done | intros [suf Hsuf]; inversion Hsuf; by destruct Hne].
Qed.

(** The test of the module, [needle in hay], is the substring relation. *)
Lemma contains_spec (needle hay : string) :
  contains needle hay = true ↔ is_substring needle hay.
Proof.
  split.
  - induction hay as [|b hay IH]; cbn [contains]; rewrite orb_true_iff.
    + intros [Hp | Hf]; [|done]. apply prefix_spec in Hp as [suf Hsuf].
      by exists "", suf.
    + intros [Hp | Hc].
      * apply prefix_spec in Hp as [suf Hsuf]. by exists "", suf.
      * destruct (IH Hc) as (pre & suf & ->). by exists (String b pre), suf.
  - intros (pre & suf & ->). induction pre as [|b pre IH].
    + assert (String.prefix needle (needle +:+ suf) = true) as Hp
        by (apply prefix_spec; by exists suf).
      change (contains needle (needle +:+ suf) = true).
      destruct (needle +:+ suf); cbn [contains]; by rewrite Hp.
    + change (contains needle (String b (pre +:+ needle +:+ suf)) = true).
      cbn [contains]. rewrite IH. apply orb_true_r.
Qed.

End Substring.

Section LoadRuns.
Context {F Shape : Type}.

(** X10.  The import completes exactly when the reader opens, its
    [shapes()] and [records()] return, and [read_csv] returns or raises
    [FileNotFoundError].  The globals are then what the readers returned,
    with [lmeta] bound in the first case only. *)
Theorem module_init_completes_iff (fs : Files F Shape) (g : Globals F Shape) :
  (module_init fs).2 = Ok g
  ↔ ∃ sf, shapefile_Reader fs fpath_shapefile = Ok sf
          ∧ sf_shapes sf = Ok (shapes g)
          ∧ sf_records sf = Ok (records g)
          ∧ ((∃ df, read_csv fs fpath_csv ";" = Ok df ∧ lmeta g = Some df)
             ∨ (∃ msg, read_csv fs fpath_csv ";" = Raise (FileNotFoundError msg)
                       ∧ lmeta g = None)).
Proof.
  unfold module_init, open_shapefile, open_metadata. split.
  - destruct (shapefile_Reader fs fpath_shapefile) as [sf | e].
    2:{ by destruct (contains _ _). }
    destruct (sf_shapes sf) as [shp | e] eqn:Hs; [|done].
    destruct (sf_records sf) as [recs | e] eqn:Hr; [|done].
    destruct (read_csv fs fpath_csv ";") as [df | e]; [|destruct e]; simpl;
      intros [= <-]; exists sf; simpl; eauto 10.
  - intros (sf & -> & Hs & Hr & Hcsv). rewrite Hs, Hr.
    destruct g as [shp recs t]; simpl in *.
    destruct Hcsv as [(df & -> & ->) | (msg & -> & ->)]; done.
Qed.

(** X11.  At most one message is printed.  An import that completes
    has printed nothing and bound [lmeta], or has printed the message on
    the missing metadata file and left [lmeta] unbound. *)
Theorem module_init_printed (fs : Files F Shape) :
  (length (module_init fs).1 ≤ 1)%nat
  ∧ ∀ g, (module_init fs).2 = Ok g →
         ((module_init fs).1 = [] ∧ is_Some (lmeta g))
         ∨ ((module_init fs).1 = [csv_not_found_message] ∧ lmeta g = None).
Proof.
  unfold module_init, open_shapefile, open_metadata.
  destruct (shapefile_Reader fs fpath_shapefile) as [sf | e].
  2:{ destruct (contains _ _); simpl; split; [lia | done | lia | done]. }
  destruct (sf_shapes sf) as [shp | e]; [|simpl; split; [lia | done]].
  destruct (sf_records sf) as [recs | e]; [|simpl; split; [lia | done]].
  destruct (read_csv fs fpath_csv ";") as [df | e]; [|destruct e]; simpl;
    (split; [lia|]); intros g [= <-]; simpl; eauto.
Qed.

(** X12.  When the reader raises, the message with the download
    instructions is printed exactly when ["Unable to open"] occurs in the
    text of the exception, and otherwise the text of the exception is
    printed behind the heading. *)
Theorem shapefile_message_choice (fs : Files F Shape) (e : exn) :
  shapefile_Reader fs fpath_shapefile = Raise e →
  ((module_init fs).1 = [shapefile_not_found_message]
   ↔ is_substring "Unable to open" (str e))
  ∧ ((module_init fs).1
     = ["Error when reading Longhurst shapefile:" +:+ nl +:+ nl +:+ str e]
     ↔ ¬ is_substring "Unable to open" (str e)).
Proof.
  intros He. unfold module_init. rewrite (open_shapefile_raise fs e He).
  rewrite <- contains_spec. cbn [fst].
  destruct (contains "Unable to open" (str e)); split; split; done.
Qed.

(** X13.  From the exception that ends the import to its cause.  When
    the reader raised, the exception is [NameError] on [sf], not the
    reader's own.  Otherwise it is the exception of [shapes()], of
    [records()], or of [read_csv]; a [FileNotFoundError] of [read_csv]
    never ends the import. *)
Theorem module_init_failure_cause (fs : Files F Shape) (e : exn) :
  (module_init fs).2 = Raise e →
  (raises (shapefile_Reader fs fpath_shapefile) ∧ e = NameError "sf")
  ∨ ∃ sf, shapefile_Reader fs fpath_shapefile = Ok sf
          ∧ (sf_shapes sf = Raise e
             ∨ (¬ raises (sf_shapes sf) ∧ sf_records sf = Raise e)
             ∨ (¬ raises (sf_shapes sf) ∧ ¬ raises (sf_records sf)
                ∧ read_csv fs fpath_csv ";" = Raise e
                ∧ ∀ msg, e ≠ FileNotFoundError msg)).
Proof.
  unfold module_init, open_shapefile, open_metadata.
  destruct (shapefile_Reader fs fpath_shapefile) as [sf | e'].
  2:{ destruct (contains _ _); simpl; intros [= <-]; left; split; (by eexists) || done. }
  destruct (sf_shapes sf) as [shp | e'] eqn:Hs.
  2:{ simpl. intros [= <-]. right. exists sf. split; [done|]. by left. }
  assert (¬ raises (Ok shp : result (list Shape))) as Hshp by by intros [? ?].
  destruct (sf_records sf) as [recs | e'] eqn:Hr.
  2:{ simpl. intros [= <-]. right. exists sf. split; [done|]. right. left.
      rewrite Hs. by split. }
  assert (¬ raises (Ok recs : result (list (list (value F))))) as Hrecs by by intros [? ?].
  destruct (read_csv fs fpath_csv ";") as [df | e']; [done|].
  destruct e'; simpl; intros [= <-]; right; exists sf; (split; [done|]);
    right; right; rewrite Hs, Hr; refine (conj Hshp (conj Hrecs (conj eq_refl _)));
    intros msg'; discriminate.
Qed.

End LoadRuns.

(** * The further properties on two squares *)

Section TwoSquaresFurther.
Import Geometry.
Local Open Scope Q_scope.

Abbreviation run' := (find_longhurst float_of_number within).
Abbreviation half' := (VFloat (1 # 2)).

(** The squares with a records table whose first record lacks the name. *)
Abbreviation short_records :=
  ({| shapes := shapes two_squares; records := [[VStr "SQA"]]; lmeta := None |}
   : Globals Q MultiPolygon).

(** The first square alone. *)
Abbreviation first_square :=
  ({| shapes := [[square 0]]; records := [[VStr "SQA"; VStr "Square A"]]; lmeta := None |}
   : Globals Q MultiPolygon).

Abbreviation province_a := ([square 0], [VStr "SQA"; VStr "Square A"] : list (value Q)).
Abbreviation province_b := ([square 1], [VStr "SQB"; VStr "Square B"] : list (value Q)).

Abbreviation squares_table' :=
  ({| columns := ["PROVCODE"; "PROVDESCR"];
      rows := [(0%nat, [VStr "SQA"; VStr "Square A"]);
               (1%nat, [VStr "SQB"; VStr "Square B"])] |} : DataFrame Q).

(** A table in which the code SQA comes twice. *)
Abbreviation doubled_table :=
  ({| columns := ["PROVCODE"; "PROVDESCR"];
      rows := [(0%nat, [VStr "SQA"; VStr "Square A"]);
               (1%nat, [VStr "SQA"; VStr "Square A again"])] |} : DataFrame Q).

Lemma find_longhurst_index_error_iff_witness :
  (run' half' half' "code" short_records).1 = Raise (IndexError "list index out of range").
Proof.
  apply (proj2 (find_longhurst_index_error_iff float_of_number within half' half' "code"
                  short_records (1 # 2) (1 # 2) eq_refl eq_refl)).
  exists 0%nat. split; [apply two_squares_first|].
  right. exists [VStr "SQA"]. split; [reflexivity | simpl; lia].
Defined.


Lemma find_longhurst_prefix_only_witness :
  (run' half' half' "name" first_square).1 = (run' half' half' "name" two_squares).1.
Proof.
  apply (find_longhurst_prefix_only float_of_number within half' half' "name"
           two_squares first_square (1 # 2) (1 # 2) 0 eq_refl eq_refl
           two_squares_first eq_refl eq_refl).
Defined.

Lemma find_longhurst_order_irrelevant_witness :
  (run' half' half' "code" (store_of [province_b; province_a] None)).1
  = (run' half' half' "code" (store_of [province_a; province_b] None)).1.
Proof.
  apply (find_longhurst_order_irrelevant float_of_number within half' half' "code"
           [province_a; province_b] [province_b; province_a] None None
           (1 # 2) (1 # 2) eq_refl eq_refl).
  - apply perm_swap.
  - vm_compute. lia.
Defined.

Lemma longhurst_meta_record_entries_witness :
  ∃ d : gmap string (value Q),
    longhurst_meta (Some "SQB") two_squares = (Ok (MetaRecord d), two_squares)
    ∧ (1%nat, [VStr "SQB"; VStr "Square B"]) ∈ rows squares_table'
    ∧ (∀ j c, columns squares_table' !! j = Some c →
              d !! c = Some (cell j (1%nat, [VStr "SQB"; VStr "Square B"])))
    ∧ (∀ c, c ∉ columns squares_table' → d !! c = None).
Proof.
  apply (longhurst_meta_record_entries "SQB" two_squares squares_table'
           (1%nat, [VStr "SQB"; VStr "Square B"]) eq_refl squares_table_columns).
  - apply list_elem_of_here.
  - simpl. lia.
  - reflexivity.
Defined.

Lemma longhurst_meta_duplicate_codes_witness :
  ∃ (d : gmap string (gmap nat (value Q))) (col : gmap nat (value Q)),
    longhurst_meta (Some "SQA")
      {| shapes := shapes two_squares; records := records two_squares;
         lmeta := Some doubled_table |}
    = (Ok (MetaFrame d),
       {| shapes := shapes two_squares; records := records two_squares;
          lmeta := Some doubled_table |})
    ∧ d !! "PROVCODE" = Some col
    ∧ (∀ row, row ∈ matching_rows "SQA" doubled_table → is_Some (col !! row.1))
    ∧ (∀ l v, col !! l = Some v →
              v = VStr "SQA" ∧ ∃ row, row ∈ matching_rows "SQA" doubled_table ∧ row.1 = l).
Proof.
  apply (longhurst_meta_duplicate_codes "SQA"
           {| shapes := shapes two_squares; records := records two_squares;
              lmeta := Some doubled_table |}
           doubled_table eq_refl squares_table_columns).
  - apply list_elem_of_here.
  - simpl. lia.
  - vm_compute. lia.
Defined.

Lemma longhurst_meta_exceptions_witness :
  (ValueError "invalid province code" = NameError "lmeta" ∧ lmeta two_squares = None)
  ∨ ∃ df code,
      lmeta two_squares = Some df ∧ Some "ZZZZ" = Some code
      ∧ ((ValueError "invalid province code" = KeyError "PROVCODE"
          ∧ "PROVCODE" ∉ columns df)
         ∨ (ValueError "invalid province code" = ValueError "invalid province code"
            ∧ "PROVCODE" ∈ columns df ∧ matching_rows code df = [])
         ∨ (ValueError "invalid province code"
            = AttributeError "'str' object has no attribute 'to_dict'"
            ∧ columns df = ["PROVCODE"] ∧ length (matching_rows code df) = 1%nat)).
Proof.
  apply (longhurst_meta_exceptions (Some "ZZZZ") two_squares
           (ValueError "invalid province code") eq_refl).
Defined.

Lemma find_longhurst_then_meta_witness :
  run' (VInt 5) half' "code" two_squares = (Ok (VStr NOT_IN_PROV), two_squares)
  ∧ longhurst_meta (Some NOT_IN_PROV) two_squares
    = (Raise (ValueError "invalid province code"), two_squares).
Proof.
  apply (proj1 (find_longhurst_then_meta float_of_number within (VInt 5) half'
                  two_squares 5 (1 # 2) squares_table' eq_refl eq_refl eq_refl
                  (list_elem_of_here _ _)) two_squares_outside).
  intros row Hin. apply list_elem_of_In in Hin. simpl in Hin.
  destruct Hin as [<- | [<- | []]]; vm_compute; discriminate.
Defined.

Lemma module_init_completes_iff_witness :
  ∃ sf, shapefile_Reader files_without_csv fpath_shapefile = Ok sf
        ∧ sf_shapes sf = Ok (shapes two_squares)
        ∧ sf_records sf = Ok (records two_squares)
        ∧ ((∃ df, read_csv files_without_csv fpath_csv ";" = Ok df ∧ None = Some df)
           ∨ (∃ msg, read_csv files_without_csv fpath_csv ";" = Raise (FileNotFoundError msg)
                     ∧ (None : option (DataFrame Q)) = None)).
Proof.
  apply (proj1 (module_init_completes_iff files_without_csv
                  {| shapes := shapes two_squares; records := records two_squares;
                     lmeta := None |}) eq_refl).
Defined.

Lemma module_init_printed_witness :
  ((module_init files_without_csv).1 = [] ∧ is_Some (None : option (DataFrame Q)))
  ∨ ((module_init files_without_csv).1 = [csv_not_found_message]
     ∧ (None : option (DataFrame Q)) = None).
Proof.
  apply (proj2 (module_init_printed files_without_csv)
           {| shapes := shapes two_squares; records := records two_squares;
              lmeta := None |} eq_refl).
Defined.

Lemma shapefile_message_choice_witness :
  (module_init files_without_shapefile).1 = [shapefile_not_found_message].
Proof.
  apply (proj2 (proj1 (shapefile_message_choice files_without_shapefile
                         (OtherException "ShapefileException"
                            ("Unable to open " +:+ fpath_shapefile +:+ ".dbf or "
                             +:+ fpath_shapefile +:+ ".shp."))
                         eq_refl))).
  exists "", (" " +:+ fpath_shapefile +:+ ".dbf or " +:+ fpath_shapefile +:+ ".shp.").
  reflexivity.
Defined.

Lemma module_init_failure_cause_witness :
  (raises (shapefile_Reader files_without_shapefile fpath_shapefile)
   ∧ NameError "sf" = NameError "sf")
  ∨ ∃ sf, shapefile_Reader files_without_shapefile fpath_shapefile = Ok sf
          ∧ (sf_shapes sf = Raise (NameError "sf")
             ∨ (¬ raises (sf_shapes sf) ∧ sf_records sf = Raise (NameError "sf"))
             ∨ (¬ raises (sf_shapes sf) ∧ ¬ raises (sf_records sf)
                ∧ read_csv files_without_shapefile fpath_csv ";" = Raise (NameError "sf")
                ∧ ∀ msg, NameError "sf" ≠ FileNotFoundError msg)).
Proof.
  apply (module_init_failure_cause files_without_shapefile (NameError "sf") eq_refl).
Defined.

End TwoSquaresFurther.
